(** * safety-alert-server: the check-in timer and the alert dispatcher

    A shallow embedding of [src/server.js].  The server keeps one mutable
    object, [safetyState]; every Express handler and every timer callback
    runs to completion on the single JavaScript thread, so each of them is
    a function from the state before to the state after.  The only
    asynchronous function, [sendAlertToContacts], works on a private
    snapshot of the contact list and never writes the state; it is a
    computation over the notifier ([bot.sendMessage]) alone.

    Request bodies are duck-typed in the source, so the embedding keeps
    JavaScript's dynamic values and the conversions the operators apply to
    them ([||], [+], [*], [-], [<=], [>=], template literals).  The routes
    that only read ([/api/health], [/api/timer]) and the manual
    [/api/send-alert], which writes nothing, come after the writers, in
    [Routes]. *)

From Stdlib Require Import ZArith List String Ascii Bool Lia DecimalString.
Import ListNotations.

Local Open Scope string_scope.
Local Open Scope Z_scope.
Set Warnings "-register-all".

(** ** JavaScript values *)

Module JS.

(** Numbers.  The program only ever combines millisecond timestamps and
    durations; they are modelled as integers, on which binary64 arithmetic
    is exact below 2^53, together with [NaN], which the conversions
    produce.  Fractional numerals and the infinities are not modelled. *)
Inductive number : Type :=
| NaN
| Int (z : Z).

(** Primitive values, and the values [JSON.parse] builds from them.  An
    object is the list of its own properties, keys unique as [JSON.parse]
    leaves them. *)
Inductive prim : Type :=
| PUndefined
| PNull
| PBool (b : bool)
| PNum (n : number)
| PStr (s : string).

Inductive value : Type :=
| VPrim (p : prim)
| VArr (elems : list value)
| VObj (props : list (string * value)).

Coercion Int : Z >-> number.
Coercion PNum : number >-> prim.
Coercion VPrim : prim >-> value.

Definition undefined : value := VPrim PUndefined.
Definition null : value := VPrim PNull.
Definition str (s : string) : value := VPrim (PStr s).
Definition num (z : Z) : value := VPrim (PNum (Int z)).
Definition bool_ (b : bool) : value := VPrim (PBool b).

(** Evaluating an expression either yields a value or throws.  The
    conversions throw nothing but a [TypeError]; the exception itself is
    never inspected by the program. *)
Inductive result (A : Type) : Type :=
| Ok (a : A)
| Throw.
Arguments Ok {A} a.
Arguments Throw {A}.

Definition bind {A B} (m : result A) (k : A -> result B) : result B :=
  match m with
  | Ok a => k a
  | Throw => Throw
  end.

Notation "x <- m ;; k" := (bind m (fun x => k))
  (at level 61, m at next level, right associativity).

Definition is_ok {A} (m : result A) : bool :=
  match m with Ok _ => true | Throw => false end.

(** *** Number arithmetic *)

(** Exact integer arithmetic with [NaN] absorbing: what binary64 computes
    on integers while operands and result are within 2^53 in magnitude.
    Beyond that the program rounds and overflows to the infinities, which
    are not modelled; a statement that gives the value of a sum, a
    difference or a product bounds its quantities ([Bounds.small]). *)

Definition num_add (a b : number) : number :=
  match a, b with
  | Int x, Int y => Int (x + y)
  | _, _ => NaN
  end.

Definition num_sub (a b : number) : number :=
  match a, b with
  | Int x, Int y => Int (x - y)
  | _, _ => NaN
  end.

Definition num_mul (a b : number) : number :=
  match a, b with
  | Int x, Int y => Int (x * y)
  | _, _ => NaN
  end.

(** [a <= b] and [a >= b]; every comparison with [NaN] is false. *)
Definition num_le (a b : number) : bool :=
  match a, b with
  | Int x, Int y => x <=? y
  | _, _ => false
  end.

Definition num_ge (a b : number) : bool :=
  match a, b with
  | Int x, Int y => x >=? y
  | _, _ => false
  end.

(** *** ToBoolean, [||] and [!] *)

Definition ToBoolean (v : value) : bool :=
  match v with
  | VPrim PUndefined | VPrim PNull => false
  | VPrim (PBool b) => b
  | VPrim (PNum NaN) => false
  | VPrim (PNum (Int z)) => negb (z =? 0)
  | VPrim (PStr s) => negb (s =? "")%string
  | VArr _ | VObj _ => true
  end.

Definition js_or (a b : value) : value :=
  if ToBoolean a then a else b.

Definition js_not (a : value) : bool := negb (ToBoolean a).

(** *** Property reads *)

Fixpoint own (key : string) (props : list (string * value)) : option value :=
  match props with
  | [] => None
  | (k, v) :: rest => if (k =? key)%string then Some v else own key rest
  end.

Definition has_own (key : string) (props : list (string * value)) : bool :=
  match own key props with Some _ => true | None => false end.

(** [v.key] for a key that no built-in prototype defines and that is
    neither an index nor [length] (the program reads [chatId] and [name]):
    [null] and [undefined] throw, an object yields its own property, every
    other value yields [undefined]. *)
Definition get (v : value) (key : string) : result value :=
  match v with
  | VPrim PUndefined | VPrim PNull => Throw
  | VObj props =>
      match own key props with
      | Some x => Ok x
      | None => Ok undefined
      end
  | _ => Ok undefined
  end.

Definition isArray (v : value) : bool :=
  match v with VArr _ => true | _ => false end.

(** *** ToString *)

(** Integers print in decimal (below 1e21, as they all are here). *)
Definition NumberToString (n : number) : string :=
  match n with
  | NaN => "NaN"
  | Int z => NilZero.string_of_int (Z.to_int z)
  end.

Definition PrimToString (p : prim) : string :=
  match p with
  | PUndefined => "undefined"
  | PNull => "null"
  | PBool true => "true"
  | PBool false => "false"
  | PNum n => NumberToString n
  | PStr s => s
  end.

(** A parsed object inherits [Object.prototype.toString] unless the JSON
    text gave it an own [toString] property; that property is data, not a
    function, and then no conversion method is left: [TypeError].  (An own
    [valueOf] is skipped for the same reason, and the inherited one returns
    the object itself, so [valueOf] never decides.)  An array converts
    through [join], where [null] and [undefined] elements print as the
    empty string. *)
Fixpoint ToString (v : value) : result string :=
  match v with
  | VPrim p => Ok (PrimToString p)
  | VArr elems =>
      (fix join (l : list value) : result string :=
         match l with
         | [] => Ok ""
         | x :: rest =>
             s <- match x with
                  | VPrim PUndefined | VPrim PNull => Ok ""
                  | _ => ToString x
                  end ;;
             match rest with
             | [] => Ok s
             | _ :: _ => r <- join rest ;; Ok (s ++ "," ++ r)
             end
         end) elems
  | VObj props =>
      if has_own "toString" props then Throw else Ok "[object Object]"
  end.

(** ToPrimitive gives the same answer for every hint on parsed values. *)
Definition ToPrimitive (v : value) : result prim :=
  match v with
  | VPrim p => Ok p
  | _ => s <- ToString v ;; Ok (PStr s)
  end.

(** *** ToNumber *)

Definition is_space (c : ascii) : bool :=
  match nat_of_ascii c with
  | 9%nat | 10%nat | 11%nat | 12%nat | 13%nat | 32%nat => true
  | _ => false
  end.

Fixpoint trim_left (s : string) : string :=
  match s with
  | EmptyString => EmptyString
  | String c r => if is_space c then trim_left r else s
  end.

Fixpoint trim_right (s : string) : string :=
  match s with
  | EmptyString => EmptyString
  | String c r =>
      match trim_right r with
      | EmptyString => if is_space c then EmptyString else String c EmptyString
      | r' => String c r'
      end
  end.

Definition digit (c : ascii) : option Z :=
  let n := Z.of_nat (nat_of_ascii c) in
  if (48 <=? n) && (n <=? 57) then Some (n - 48) else None.

Fixpoint digits (s : string) (acc : Z) : option Z :=
  match s with
  | EmptyString => Some acc
  | String c r =>
      match digit c with
      | Some d => digits r (10 * acc + d)
      | None => None
      end
  end.

Definition unsigned (s : string) : number :=
  match s with
  | EmptyString => NaN
  | _ => match digits s 0 with Some z => Int z | None => NaN end
  end.

(** StringToNumber on the integer fragment: surrounding white space is
    dropped, the empty string is 0, an optionally signed run of decimal
    digits is that integer, and a string that is no numeric literal is
    [NaN].  Literals with a fraction, an exponent or a radix prefix, and
    [Infinity], denote numbers outside the integer model and are not
    distinguished from the last case. *)
Definition StringToNumber (s : string) : number :=
  match trim_right (trim_left s) with
  | EmptyString => Int 0
  | String "+" r => unsigned r
  | String "-" r =>
      match unsigned r with
      | Int z => Int (- z)
      | NaN => NaN
      end
  | t => unsigned t
  end.

Definition PrimToNumber (p : prim) : number :=
  match p with
  | PUndefined => NaN
  | PNull => Int 0
  | PBool true => Int 1
  | PBool false => Int 0
  | PNum n => n
  | PStr s => StringToNumber s
  end.

Definition ToNumber (v : value) : result number :=
  p <- ToPrimitive v ;; Ok (PrimToNumber p).

(** *** The binary operators *)

(** [a + b]: concatenation as soon as one primitive operand is a string. *)
Definition prim_add (a b : prim) : prim :=
  match a, b with
  | PStr _, _ | _, PStr _ => PStr (PrimToString a ++ PrimToString b)
  | _, _ => PNum (num_add (PrimToNumber a) (PrimToNumber b))
  end.

Definition add (a b : value) : result prim :=
  pa <- ToPrimitive a ;; pb <- ToPrimitive b ;; Ok (prim_add pa pb).

Definition mul (a b : value) : result number :=
  na <- ToNumber a ;; nb <- ToNumber b ;; Ok (num_mul na nb).

Definition prim_sub (a b : prim) : number :=
  num_sub (PrimToNumber a) (PrimToNumber b).

End JS.

(** ** The server *)

Module Server.
Import JS.

(** [safetyState], lines 22-28.  [deadline] only ever receives [null] or
    the result of an arithmetic operator, hence a primitive;
    [timerDuration] only ever receives a product, hence a number. *)
Record safetyState : Type := mkState {
  deadline : prim;
  timerDuration : number;
  contacts : list value;
  alertSentForCurrentDeadline : bool;
  lastResetBy : value
}.

Definition initialState : safetyState :=
  {| deadline := PNull;
     timerDuration := Int (24 * 60 * 60 * 1000);
     contacts := [];
     alertSentForCurrentDeadline := false;
     lastResetBy := null |}.

Definition set_deadline (d : prim) (s : safetyState) : safetyState :=
  mkState d (timerDuration s) (contacts s)
          (alertSentForCurrentDeadline s) (lastResetBy s).

Definition set_timerDuration (t : number) (s : safetyState) : safetyState :=
  mkState (deadline s) t (contacts s)
          (alertSentForCurrentDeadline s) (lastResetBy s).

Definition set_contacts (l : list value) (s : safetyState) : safetyState :=
  mkState (deadline s) (timerDuration s) l
          (alertSentForCurrentDeadline s) (lastResetBy s).

Definition set_alertSent (b : bool) (s : safetyState) : safetyState :=
  mkState (deadline s) (timerDuration s) (contacts s) b (lastResetBy s).

Definition set_lastResetBy (v : value) (s : safetyState) : safetyState :=
  mkState (deadline s) (timerDuration s) (contacts s)
          (alertSentForCurrentDeadline s) v.

(** What a handler answers: [res.status(c).json(obj)], or the 500 that
    Express sends when the handler throws. *)
Inductive response : Type :=
| Json (status : Z) (body : list (string * value))
| InternalError.

(** *** POST /api/reset-timer, lines 53-74 *)

(** What the handler destructures from [req.body]; a property the body
    does not have is [undefined]. *)
Record resetBody : Type := mkResetBody {
  duration : value;
  resetBy : value
}.

(** The three [console.log] lines print template literals; a substitution
    that cannot be converted throws out of the handler after the state has
    been written. *)
Definition reset_logs (effectiveDuration : value) (s : safetyState)
  : result unit :=
  _ <- ToString (lastResetBy s) ;;
  _ <- ToNumber effectiveDuration ;;
  Ok tt.

Definition reset_timer (now : Z) (body : resetBody) (s : safetyState)
  : response * safetyState :=
  let effectiveDuration := js_or (duration body) (VPrim (timerDuration s)) in
  match add (num now) effectiveDuration with
  | Throw => (InternalError, s)
  | Ok d =>
      let s1 := set_deadline d s in
      let s2 := set_alertSent false s1 in
      let s3 := set_lastResetBy (js_or (resetBy body) (str "Anonymous")) s2 in
      match reset_logs effectiveDuration s3 with
      | Throw => (InternalError, s3)
      | Ok _ =>
          (Json 200 [("success", bool_ true);
                     ("deadline", VPrim (deadline s3));
                     ("duration", effectiveDuration);
                     ("message", str "Timer reset successfully")],
           s3)
      end
  end.

(** *** POST /api/contacts, lines 77-84 *)

Definition post_contacts (body_contacts : value) (s : safetyState)
  : response * safetyState :=
  match body_contacts with
  | VArr l =>
      (Json 200 [("success", bool_ true);
                 ("count", num (Z.of_nat (List.length l)))],
       set_contacts l s)
  | _ => (Json 400 [("error", str "Contacts must be an array")], s)
  end.

(** *** POST /api/timer-duration, lines 87-108 *)

Record durationBody : Type := mkDurationBody {
  hours : value;
  minutes : value;
  seconds : value
}.

(** Line 89.  The two products are numbers; the last [+] meets
    [seconds || 0] unconverted, so a string there concatenates. *)
Definition computed_duration (body : durationBody) : result number :=
  h <- mul (js_or (hours body) (num 0)) (num 3600) ;;
  m <- mul (js_or (minutes body) (num 0)) (num 60) ;;
  t <- add (VPrim (num_add h m)) (js_or (seconds body) (num 0)) ;;
  Ok (num_mul (PrimToNumber t) (Int 1000)).

(** Lines 98-101, with the state as line 95 left it.  The clock is read
    twice: [now1] on line 99, [now2] on line 100. *)
Definition extend_deadline (now1 now2 : Z) (s : safetyState) : safetyState :=
  if ToBoolean (VPrim (deadline s)) then
    let timeElapsed :=
      num_sub (Int now1) (prim_sub (deadline s) (PNum (timerDuration s))) in
    set_deadline
      (PNum (num_sub (num_add (Int now2) (timerDuration s)) timeElapsed)) s
  else s.

Definition duration_message (body : durationBody) : result string :=
  h <- ToString (hours body) ;;
  m <- ToString (minutes body) ;;
  sec <- ToString (seconds body) ;;
  Ok ("Timer duration set to " ++ h ++ "h " ++ m ++ "m " ++ sec ++ "s").

Definition timer_duration (now1 now2 : Z) (body : durationBody)
  (s : safetyState) : response * safetyState :=
  match computed_duration body with
  | Throw => (InternalError, s)
  | Ok duration =>
      if num_le duration (Int 0) then
        (Json 400 [("error", str "Duration must be greater than 0")], s)
      else
        let s1 := set_timerDuration duration s in
        let s2 := extend_deadline now1 now2 s1 in
        match duration_message body with
        | Throw => (InternalError, s2)
        | Ok msg =>
            (Json 200 [("success", bool_ true);
                       ("duration", VPrim (timerDuration s2));
                       ("message", str msg)],
             s2)
        end
  end.

(** *** sendAlertToContacts, lines 124-150 *)

(** The value the promise of [sendAlertToContacts] resolves to.  [total]
    is optional because line 129 builds an object without that property. *)
Record alertResult : Type := mkResult {
  sent : nat;
  failed : nat;
  total : option nat
}.

(** One call of [bot.sendMessage], with its outcome. *)
Record attempt : Type := mkAttempt {
  to : value;
  text : value;
  delivered : bool
}.

Section Notifier.

(** The notifier is outside the program: [sendMessage chatId text w] tells
    whether the promise of [bot.sendMessage] is fulfilled and what the
    outside world is afterwards. *)
Variable World : Type.
Variable sendMessage : value -> value -> World -> bool * World.

(** Computations of the async function: they may throw, they change the
    outside world and they extend the log of notifier calls. *)
Definition M (A : Type) : Type :=
  World * list attempt -> result A * (World * list attempt).

Definition ret {A} (a : A) : M A := fun st => (Ok a, st).

Definition bindM {A B} (m : M A) (k : A -> M B) : M B :=
  fun st =>
    match m st with
    | (Ok a, st') => k a st'
    | (Throw, st') => (Throw, st')
    end.

Notation "x <-- m ;; k" := (bindM m (fun x => k))
  (at level 61, m at next level, right associativity).

Definition lift {A} (r : result A) : M A := fun st => (r, st).

(** [try { body } catch (err) { handler }] *)
Definition try_catch {A} (body handler : M A) : M A :=
  fun st =>
    match body st with
    | (Ok a, st') => (Ok a, st')
    | (Throw, st') => handler st'
    end.

(** [await bot.sendMessage(chatId, message)]: a rejected promise throws at
    the [await], with the error object of the transport. *)
Definition await_sendMessage (chatId message : value) : M unit :=
  fun st =>
    let '(w, log) := st in
    let '(ok, w') := sendMessage chatId message w in
    ((if ok then Ok tt else Throw),
     (w', (log ++ [mkAttempt chatId message ok])%list)).

(** Line 125: [safetyState.contacts.filter((c) => c.chatId)]. *)
Fixpoint filter_chatId (cs : list value) : result (list value) :=
  match cs with
  | [] => Ok []
  | c :: rest =>
      id <- get c "chatId" ;;
      kept <- filter_chatId rest ;;
      Ok (if ToBoolean id then c :: kept else kept)
  end.

(** Lines 139-146, one turn of the loop on the counters [(sent, failed)].
    Both log lines are template literals over the contact's properties. *)
Definition attempt_contact (message contact : value) (counts : nat * nat)
  : M (nat * nat) :=
  try_catch
    (id <-- lift (get contact "chatId") ;;
     _ <-- await_sendMessage id message ;;
     n <-- lift (get contact "name") ;;
     _ <-- lift (ToString n) ;;
     i <-- lift (get contact "chatId") ;;
     _ <-- lift (ToString i) ;;
     ret (S (fst counts), snd counts))
    (n <-- lift (get contact "name") ;;
     _ <-- lift (ToString n) ;;
     ret (fst counts, S (snd counts))).

Fixpoint deliver (message : value) (cs : list value) (counts : nat * nat)
  : M (nat * nat) :=
  match cs with
  | [] => ret counts
  | contact :: rest =>
      counts' <-- attempt_contact message contact counts ;;
      deliver message rest counts'
  end.

(** The function reads [safetyState.contacts] once, on entry. *)
Definition sendAlertToContacts (message : value) (s : safetyState)
  : M alertResult :=
  contacts <-- lift (filter_chatId (contacts s)) ;;
  if (List.length contacts =? 0)%nat then
    ret (mkResult 0 0 None)
  else
    counts <-- deliver message contacts (0%nat, 0%nat) ;;
    ret (mkResult (fst counts) (snd counts) (Some (List.length contacts))).

End Notifier.

Arguments ret {World A} a.
Arguments lift {World A} r.

(** *** checkTimer, lines 152-179, and the timer callbacks *)

Definition newline : string := String (ascii_of_nat 10) EmptyString.

Definition defaultMessage : value :=
  str ("🚨 SAFETY CHECK-IN MISSED!" ++ newline ++ newline ++
       "ምናልባት ችግር አጋጥሞኝ ሊሆን ስለሚችል እባክዎን ደውለው ደኅንነቴን ያረጋግጡ፡፡").

(** [checkTimer] returns the state it leaves and, when it fires, the state
    in which it called [sendAlertToContacts(defaultMessage)]. *)
Definition checkTimer (now : Z) (s : safetyState)
  : safetyState * option safetyState :=
  if js_not (VPrim (deadline s)) then (s, None)
  else if num_ge (Int now) (PrimToNumber (deadline s))
          && negb (alertSentForCurrentDeadline s) then
    let s' := set_alertSent true s in
    (s', Some s')
  else (s, None).

(** Lines 172-176, the [setTimeout] callback that runs one second after
    the alert promise has been fulfilled. *)
Definition autoReset (now : Z) (s : safetyState) : safetyState :=
  let s1 := set_deadline (PNum (num_add (Int now) (timerDuration s))) s in
  set_alertSent false s1.

(** Line 191, the [app.listen] callback. *)
Definition listening (now : Z) (s : safetyState) : safetyState :=
  set_deadline (PNum (num_add (Int now) (timerDuration s))) s.

(** *** Runs of the server *)

(** Everything that writes [safetyState].  Callbacks never overlap, so a
    run is a sequence of them. *)
Inductive event : Type :=
| Listening (now : Z)
| ResetTimer (now : Z) (body : resetBody)
| PostContacts (body_contacts : value)
| TimerDuration (now1 now2 : Z) (body : durationBody)
| CheckTimer (now : Z)
| AutoReset (now : Z).

Definition step (s : safetyState) (e : event) : safetyState :=
  match e with
  | Listening now => listening now s
  | ResetTimer now body => snd (reset_timer now body s)
  | PostContacts c => snd (post_contacts c s)
  | TimerDuration now1 now2 body => snd (timer_duration now1 now2 body s)
  | CheckTimer now => fst (checkTimer now s)
  | AutoReset now => autoReset now s
  end.

Definition run (es : list event) (s : safetyState) : safetyState :=
  fold_left step es s.

(** The dispatches the polls of a run start, each given by the state in
    which [checkTimer] called [sendAlertToContacts]. *)
Fixpoint alerts (es : list event) (s : safetyState) : list safetyState :=
  match es with
  | [] => []
  | e :: rest =>
      match e with
      | CheckTimer now =>
          match snd (checkTimer now s) with
          | Some d => d :: alerts rest (step s e)
          | None => alerts rest (step s e)
          end
      | _ => alerts rest (step s e)
      end
  end.

(** Consecutive polls: the state after them and the dispatches started. *)
Fixpoint ticks (nows : list Z) (s : safetyState)
  : safetyState * list safetyState :=
  match nows with
  | [] => (s, [])
  | now :: rest =>
      let '(s1, fired) := checkTimer now s in
      let '(s2, later) := ticks rest s1 in
      (s2, match fired with Some d => d :: later | None => later end)
  end.

End Server.

(** ** What the specification says, where the program is compared with it *)

Module Spec.
Import JS Server.

(** Section 4.2, [setDuration]: [elapsed = now - (oldDeadline - oldDuration)]
    and [deadline = now + newDuration - elapsed]. *)
Definition spec_setDuration_deadline (now D T1 T2 : Z) : Z :=
  let elapsed := now - (D - T1) in
  now + T2 - elapsed.

(** Section 4.2, [reset]: [duration if provided and > 0 else timerDuration]. *)
Definition spec_effective_duration (duration : value) (T : number) : number :=
  match duration with
  | VPrim (PNum (Int d)) => if 0 <? d then Int d else T
  | _ => T
  end.

(** Section 4.1: a contact counts towards [total] when its destination
    identifier is not absent. *)
Definition spec_has_destination (contact : value) : bool :=
  match contact with
  | VObj props => has_own "chatId" props
  | _ => false
  end.

Definition spec_total (cs : list value) : nat :=
  List.length (filter spec_has_destination cs).

(** Section 3: [timerDuration > 0]. *)
Definition spec_duration_positive (s : safetyState) : Prop :=
  match timerDuration s with
  | Int z => 0 < z
  | NaN => False
  end.

End Spec.

(** ** Notions the statements use *)

Module Notions.
Import JS Server.

(** The state of a server armed with deadline [D] and never touched
    otherwise. *)
Definition armed_at (D : Z) : safetyState :=
  set_deadline (PNum (Int D)) initialState.

(** What the test [duration <= 0] of line 91 lets through. *)
Definition positive_or_NaN (n : number) : Prop :=
  match n with
  | NaN => True
  | Int z => 0 < z
  end.

(** The two callbacks that start a new cycle. *)
Definition rearms (e : event) : bool :=
  match e with
  | ResetTimer _ _ | AutoReset _ => true
  | _ => false
  end.

(** The predicate of the filter on line 125, [(c) => c.chatId], on an
    element that can be asked for a property. *)
Definition chatId_of (c : value) : value :=
  match get c "chatId" with
  | Ok id => id
  | Throw => undefined
  end.

Definition eligible (c : value) : bool := ToBoolean (chatId_of c).

Definition readable (c : value) : bool := is_ok (get c "chatId").

(** The two log lines of the loop can be printed for this contact: its
    [name] and its [chatId] convert to strings.  Strings, numbers and
    absent properties always do. *)
Definition loggable (c : value) : bool :=
  is_ok (n <- get c "name" ;; ToString n)
  && is_ok (i <- get c "chatId" ;; ToString i).

(** The object without one of its properties. *)
Definition delete (key : string) (props : list (string * value))
  : list (string * value) :=
  filter (fun kv => negb (fst kv =? key)%string) props.

Definition successes (log : list attempt) : nat :=
  List.length (filter delivered log).

Definition failures (log : list attempt) : nat :=
  List.length (filter (fun a => negb (delivered a)) log).

End Notions.

(** ** The remaining routes and callbacks *)

Module Routes.
Import JS Server.

(** [Math.max(0, x)] on a number: [NaN] stays [NaN]. *)
Definition Math_max0 (x : number) : number :=
  match x with
  | NaN => NaN
  | Int z => Int (Z.max 0 z)
  end.

(** *** GET /api/health, lines 33-35 *)

Definition get_health (now : Z) : response :=
  Json 200 [("status", str "OK"); ("serverTime", num now)].

(** *** GET /api/timer, lines 38-50 *)

(** Line 40: [safetyState.deadline ? safetyState.deadline - now : 0]. *)
Definition timeLeft (now : Z) (s : safetyState) : number :=
  if ToBoolean (VPrim (deadline s)) then
    prim_sub (deadline s) (PNum (Int now))
  else Int 0.

Definition get_timer (now : Z) (s : safetyState) : response :=
  Json 200 [("deadline", VPrim (deadline s));
            ("timeLeft", VPrim (PNum (Math_max0 (timeLeft now s))));
            ("timerDuration", VPrim (PNum (timerDuration s)));
            ("alertSent", bool_ (alertSentForCurrentDeadline s));
            ("contacts", VArr (contacts s));
            ("lastResetBy", lastResetBy s)].

Section Alerts.

Variable World : Type.
Variable sendMessage : value -> value -> World -> bool * World.

(** *** POST /api/send-alert, lines 111-120 *)

(** [err.message] of whatever rejected the dispatch; its text is the
    engine's or the transport's. *)
Variable err_message : value.

Definition send_alert (message : value) (s : safetyState)
  : World * list attempt -> response * (World * list attempt) :=
  fun st =>
    if js_not message then
      (Json 400 [("error", str "Message is required")], st)
    else
      match sendAlertToContacts World sendMessage message s st with
      | (Ok _, st') =>
          (Json 200 [("success", bool_ true); ("message", str "Alert sent")],
           st')
      | (Throw, st') => (Json 500 [("error", err_message)], st')
      end.

(** *** Lines 160-178 as one sequence *)

(** What has become of the process. *)
Inductive outcome : Type :=
| Running (s : safetyState)
| Exited.

(** The promise of line 168 has a [then] and no rejection handler.  What
    a rejection nobody handles does is the runtime's choice: Node turns it
    into an uncaught exception, which ends the process, by default since
    version 15; before that, and under [--unhandled-rejections=warn], it
    prints a warning and goes on. *)
Variable exits_on_unhandled_rejection : bool.

(** The poll at [now], the dispatch it starts, and the [then] callback
    whose timer runs lines 173-174 at [now'], with no other callback in
    between.  A rejected dispatch never reaches [then]: nothing re-arms. *)
Definition checkTimer_then (now now' : Z) (s : safetyState)
  : World * list attempt -> outcome * (World * list attempt) :=
  fun st =>
    match checkTimer now s with
    | (s1, None) => (Running s1, st)
    | (s1, Some d) =>
        match sendAlertToContacts World sendMessage defaultMessage d st with
        | (Ok _, st') => (Running (autoReset now' s1), st')
        | (Throw, st') =>
            (if exits_on_unhandled_rejection then Exited else Running s1,
             st')
        end
    end.

End Alerts.

End Routes.

(** ** Notions for requests that carry what the client is meant to send *)

Module Typed.
Import JS Server.

(** A numeric request field: absent, [null] or an integer. *)
Definition numeric_field (v : value) : bool :=
  match v with
  | VPrim PUndefined | VPrim PNull | VPrim (PNum (Int _)) => true
  | _ => false
  end.

(** The number such a field stands for once [|| 0] has been applied. *)
Definition field_value (v : value) : Z :=
  match v with
  | VPrim (PNum (Int z)) => z
  | _ => 0
  end.

Definition numeric_body (body : durationBody) : bool :=
  numeric_field (hours body) && numeric_field (minutes body)
  && numeric_field (seconds body).

Definition is_reset (e : event) : bool :=
  match e with ResetTimer _ _ => true | _ => false end.

Definition is_timer_duration (e : event) : bool :=
  match e with TimerDuration _ _ _ => true | _ => false end.

(** The array of the last request to /api/contacts that carried one. *)
Definition last_posted (es : list event) (before : list value) : list value :=
  fold_left (fun acc e =>
               match e with
               | PostContacts (VArr l) => l
               | _ => acc
               end) es before.

Definition is_prefix {A} (p l : list A) : Prop :=
  exists rest, l = (p ++ rest)%list.

(** The resets and auto-resets of a run. *)
Definition count_rearms (es : list event) : nat :=
  List.length (filter Notions.rearms es).

End Typed.

(** ** The range in which the integer model is exact *)

Module Bounds.
Import JS Server Typed.

(** JavaScript numbers are binary64.  On integers, sums, differences and
    products are exact there as long as the operands and the result stay
    within 2^53 in magnitude, and that exact arithmetic is what [num_add],
    [num_sub] and [num_mul] are.  A statement that gives the value of such
    a computation keeps its quantities [small]: 2^51 ms are some 71,000
    years, and the sums of lines 60, 99, 100 and 173 over small quantities
    stay below 2^53. *)
Definition small (z : Z) : Prop := - 2 ^ 51 <= z <= 2 ^ 51.

Definition small_number (n : number) : Prop :=
  match n with
  | NaN => True
  | Int z => small z
  end.

(** A numeric request field of at most nine digits, absent or [null]. *)
Definition bounded_field (v : value) : bool :=
  match v with
  | VPrim PUndefined | VPrim PNull => true
  | VPrim (PNum (Int z)) => Z.abs z <=? 1000000000
  | _ => false
  end.

(** With such fields every product and sum of line 89 is below 2^53. *)
Definition bounded_body (body : durationBody) : bool :=
  bounded_field (hours body) && bounded_field (minutes body)
  && bounded_field (seconds body).

(** Line 89 on numeric fields. *)
Definition duration_total (body : durationBody) : Z :=
  (field_value (hours body) * 3600 + field_value (minutes body) * 60
   + field_value (seconds body)) * 1000.

Definition bounded_duration_request (e : event) : bool :=
  match e with
  | TimerDuration _ _ body => bounded_body body
  | _ => true
  end.


End Bounds.

Import JS Server Spec Notions.
Import Typed Bounds.

(** ** The timer *)

(** *** Changing the duration *)

Lemma spec_setDuration_deadline_eq (now D T1 T2 : Z) :
  spec_setDuration_deadline now D T1 T2 = D + T2 - T1.
Proof. unfold spec_setDuration_deadline. lia. Qed.


Lemma extend_deadline_frame (now1 now2 : Z) (s : safetyState) :
  timerDuration (extend_deadline now1 now2 s) = timerDuration s
  /\ contacts (extend_deadline now1 now2 s) = contacts s
  /\ alertSentForCurrentDeadline (extend_deadline now1 now2 s)
     = alertSentForCurrentDeadline s
  /\ lastResetBy (extend_deadline now1 now2 s) = lastResetBy s.
Proof.
  unfold extend_deadline.
  destruct (ToBoolean (VPrim (deadline s))); simpl; auto.
Qed.

(** The state a request to /api/timer-duration leaves, whatever it
    answers. *)
Lemma timer_duration_state (now1 now2 : Z) (body : durationBody)
  (s : safetyState) :
  snd (timer_duration now1 now2 body s) =
  match computed_duration body with
  | Throw => s
  | Ok d =>
      if num_le d (Int 0) then s
      else extend_deadline now1 now2 (set_timerDuration d s)
  end.
Proof.
  unfold timer_duration.
  destruct (computed_duration body) as [d|]; [|reflexivity].
  destruct (num_le d (Int 0)); [reflexivity|].
  destruct (duration_message body); reflexivity.
Qed.

(** A computed duration that is a number [<= 0] is refused and nothing is
    written. *)
Lemma timer_duration_rejects (now1 now2 d : Z) (body : durationBody)
  (s : safetyState) :
  computed_duration body = Ok (Int d) ->
  d <= 0 ->
  timer_duration now1 now2 body s =
  (Json 400 [("error", str "Duration must be greater than 0")], s).
Proof.
  intros Hc Hd. unfold timer_duration. rewrite Hc. simpl.
  destruct (d <=? 0) eqn:E; [reflexivity|].
  apply Z.leb_gt in E. lia.
Qed.

Example timer_duration_rejects_zero :
  timer_duration 1700000000000 1700000000000
                 (mkDurationBody (num 0) (num 0) (num 0))
                 (armed_at 1700086400000) =
  (Json 400 [("error", str "Duration must be greater than 0")],
   armed_at 1700086400000).
Proof.
  apply (timer_duration_rejects _ _ 0); [reflexivity | lia].
Qed.

(** [timerDuration] is written on line 95 only, with a value that passed
    the test of line 91: in every run it stays a positive number or
    [NaN]. *)
Lemma step_timerDuration (s : safetyState) (e : event) :
  positive_or_NaN (timerDuration s) ->
  positive_or_NaN (timerDuration (step s e)).
Proof.
  intros H. destruct e as [now|now body|c|now1 now2 body|now|now]; simpl.
  - exact H.
  - unfold reset_timer.
    destruct (add _ _); [|exact H].
    destruct (reset_logs _ _); exact H.
  - destruct c as [p|l|o]; exact H.
  - rewrite timer_duration_state.
    destruct (computed_duration body) as [d|]; [|exact H].
    destruct (num_le d (Int 0)) eqn:E; [exact H|].
    destruct (extend_deadline_frame now1 now2 (set_timerDuration d s))
      as [-> _]. simpl.
    destruct d as [|z]; simpl; [exact I|].
    simpl in E. apply Z.leb_gt in E. exact E.
  - unfold checkTimer.
    destruct (js_not _); [exact H|].
    destruct (_ && _); exact H.
  - exact H.
Qed.

Lemma run_timerDuration (es : list event) (s : safetyState) :
  positive_or_NaN (timerDuration s) ->
  positive_or_NaN (timerDuration (run es s)).
Proof.
  revert s. induction es as [|e es IH]; intros s H; simpl.
  - exact H.
  - apply IH. apply step_timerDuration. exact H.
Qed.

(** A request served within one tick of the clock, on a state whose
    deadline is a number, with a computed duration that is a positive
    number: only [timerDuration] is written. *)
Lemma timer_duration_only_duration (now D T2 : Z) (body : durationBody)
  (s : safetyState) :
  deadline s = PNum (Int D) ->
  computed_duration body = Ok (Int T2) ->
  0 < T2 ->
  snd (timer_duration now now body s) = set_timerDuration (Int T2) s.
Proof.
  intros HD Hc HT. rewrite timer_duration_state, Hc. simpl.
  destruct (T2 <=? 0) eqn:E; [apply Z.leb_le in E; lia|].
  unfold extend_deadline. simpl. rewrite HD. simpl.
  destruct (D =? 0); [reflexivity|].
  unfold set_deadline, set_timerDuration. simpl.
  f_equal. rewrite HD. do 2 f_equal. lia.
Qed.

(** *** Polling *)

Lemma checkTimer_cases (now : Z) (s : safetyState) :
  checkTimer now s = (s, None)
  \/ (alertSentForCurrentDeadline s = false
      /\ checkTimer now s = (set_alertSent true s, Some (set_alertSent true s))).
Proof.
  unfold checkTimer.
  destruct (js_not _); [left; reflexivity|].
  destruct (num_ge _ _); simpl; [|left; reflexivity].
  destruct (alertSentForCurrentDeadline s); simpl; auto.
Qed.

Lemma checkTimer_after_alert (now : Z) (s : safetyState) :
  alertSentForCurrentDeadline s = true ->
  checkTimer now s = (s, None).
Proof.
  intros H. destruct (checkTimer_cases now s) as [E | [C _]]; [exact E|].
  congruence.
Qed.

(** A deadline that fails the test of line 155 ([null], 0, [NaN], the
    empty string) switches the poll off. *)
Lemma checkTimer_unarmed (now : Z) (s : safetyState) :
  ToBoolean (VPrim (deadline s)) = false ->
  checkTimer now s = (s, None).
Proof.
  intros H. unfold checkTimer, js_not. rewrite H. reflexivity.
Qed.

Lemma ticks_after_alert (nows : list Z) (s : safetyState) :
  alertSentForCurrentDeadline s = true ->
  ticks nows s = (s, []).
Proof.
  intros H. induction nows as [|now rest IH]; simpl.
  - reflexivity.
  - rewrite (checkTimer_after_alert now s H), IH. reflexivity.
Qed.

Lemma ticks_unarmed (nows : list Z) (s : safetyState) :
  ToBoolean (VPrim (deadline s)) = false ->
  ticks nows s = (s, []).
Proof.
  intros H. induction nows as [|now rest IH]; simpl.
  - reflexivity.
  - rewrite (checkTimer_unarmed now s H), IH. reflexivity.
Qed.

Lemma checkTimer_fires (now D : Z) (s : safetyState) :
  deadline s = PNum (Int D) ->
  D <> 0 ->
  D <= now ->
  alertSentForCurrentDeadline s = false ->
  checkTimer now s = (set_alertSent true s, Some (set_alertSent true s)).
Proof.
  intros HD H0 Hle Hf. unfold checkTimer, js_not. rewrite HD, Hf. simpl.
  destruct (D =? 0) eqn:E; [apply Z.eqb_eq in E; contradiction|].
  simpl. destruct (now >=? D) eqn:G; [reflexivity|].
  rewrite Z.geb_leb in G. apply Z.leb_gt in G. lia.
Qed.

Lemma ticks_fire_at_most_once (nows : list Z) (s : safetyState) :
  (List.length (snd (ticks nows s)) <= 1)%nat
  /\ deadline (fst (ticks nows s)) = deadline s
  /\ Forall (fun d => d = set_alertSent true s) (snd (ticks nows s)).
Proof.
  revert s. induction nows as [|now rest IH]; intros s; simpl.
  - repeat split; auto.
  - destruct (checkTimer_cases now s) as [E | [Hf E]]; rewrite E.
    + specialize (IH s). destruct (ticks rest s) as [s2 later]. exact IH.
    + rewrite ticks_after_alert by reflexivity. simpl.
      repeat split; auto.
Qed.

(** Only the two re-arming callbacks ever clear the flag. *)
Lemma step_keeps_flag (s : safetyState) (e : event) :
  rearms e = false ->
  alertSentForCurrentDeadline s = true ->
  alertSentForCurrentDeadline (step s e) = true.
Proof.
  destruct e as [now|now body|c|now1 now2 body|now|now]; simpl;
    try discriminate; intros _ H.
  - exact H.
  - destruct c as [p|l|o]; exact H.
  - rewrite timer_duration_state.
    destruct (computed_duration body) as [d|]; [|exact H].
    destruct (num_le d (Int 0)); [exact H|].
    destruct (extend_deadline_frame now1 now2 (set_timerDuration d s))
      as (_ & _ & -> & _). exact H.
  - rewrite (checkTimer_after_alert now s H). exact H.
Qed.

Lemma alerts_after_alert (es : list event) (s : safetyState) :
  forallb (fun e => negb (rearms e)) es = true ->
  alertSentForCurrentDeadline s = true ->
  alerts es s = [].
Proof.
  revert s. induction es as [|e es IH]; intros s Hes Hs; [reflexivity|].
  simpl in Hes. apply andb_true_iff in Hes. destruct Hes as [He Hes].
  apply negb_true_iff in He.
  pose proof (IH (step s e) Hes (step_keeps_flag s e He Hs)) as Hrest.
  destruct e as [now|now body|c|now1 now2 body|now|now];
    try exact Hrest.
  cbn [alerts]. rewrite (checkTimer_after_alert now s Hs). exact Hrest.
Qed.

(** Between two re-arms at most one dispatch is started, whatever other
    requests the server handles in between. *)
Lemma alerts_at_most_once (es : list event) (s : safetyState) :
  forallb (fun e => negb (rearms e)) es = true ->
  (List.length (alerts es s) <= 1)%nat.
Proof.
  revert s. induction es as [|e es IH]; intros s Hes; [simpl; lia|].
  simpl in Hes. apply andb_true_iff in Hes. destruct Hes as [He Hes].
  destruct e as [now|now body|c|now1 now2 body|now|now];
    try exact (IH _ Hes).
  cbn [alerts].
  destruct (checkTimer_cases now s) as [E | [Hf E]];
    simpl; rewrite E; simpl.
  - exact (IH _ Hes).
  - rewrite alerts_after_alert; [simpl; lia | exact Hes |].
    reflexivity.
Qed.

(** *** Resetting and re-arming *)

(** The state a request to /api/reset-timer leaves: the three writes of
    lines 60-62 when the sum of line 60 can be computed, nothing
    otherwise. *)
Lemma reset_timer_state (now : Z) (body : resetBody) (s : safetyState) :
  snd (reset_timer now body s) =
  match add (num now) (js_or (duration body) (VPrim (timerDuration s))) with
  | Throw => s
  | Ok d =>
      mkState d (timerDuration s) (contacts s) false
              (js_or (resetBy body) (str "Anonymous"))
  end.
Proof.
  unfold reset_timer.
  destruct (add _ _) as [d|]; [|reflexivity].
  destruct (reset_logs _ _); reflexivity.
Qed.

Lemma run_snoc (es : list event) (e : event) (s : safetyState) :
  run (es ++ [e])%list s = step (run es s) e.
Proof. unfold run. rewrite fold_left_app. reflexivity. Qed.

Lemma rearm_step (s : safetyState) (e : event) :
  rearms e = true ->
  step s e = s \/ alertSentForCurrentDeadline (step s e) = false.
Proof.
  destruct e as [now|now body|c|now1 now2 body|now|now]; simpl;
    try discriminate; intros _.
  - rewrite reset_timer_state. destruct (add _ _); simpl; auto.
  - right. reflexivity.
Qed.

(** ** The dispatcher *)

Lemma own_delete (key : string) (props : list (string * value)) :
  own key (delete key props) = None.
Proof.
  induction props as [|[k v] rest IH]; simpl; [reflexivity|].
  destruct (k =? key)%string eqn:E; simpl; [exact IH|].
  rewrite E. exact IH.
Qed.

Lemma eligible_object (props : list (string * value)) :
  eligible (VObj props) =
  match own "chatId" props with
  | Some id => ToBoolean id
  | None => false
  end.
Proof.
  unfold eligible, chatId_of. simpl.
  destruct (own "chatId" props); reflexivity.
Qed.

Lemma readable_object (props : list (string * value)) :
  readable (VObj props) = true.
Proof.
  unfold readable. simpl. destruct (own "chatId" props); reflexivity.
Qed.

Lemma readable_get (c : value) :
  readable c = true -> get c "chatId" = Ok (chatId_of c).
Proof.
  unfold readable, chatId_of. destruct (get c "chatId"); simpl.
  - reflexivity.
  - discriminate.
Qed.

Lemma loggable_readable (c : value) : loggable c = true -> readable c = true.
Proof.
  unfold loggable, readable. intros H.
  apply andb_true_iff in H. destruct H as [_ H].
  destruct (get c "chatId"); [reflexivity | discriminate H].
Qed.

Lemma filter_chatId_readable (cs : list value) :
  Forall (fun c => readable c = true) cs ->
  filter_chatId cs = Ok (filter eligible cs).
Proof.
  induction 1 as [|c rest Hc _ IH]; simpl; [reflexivity|].
  rewrite (readable_get c Hc), IH. reflexivity.
Qed.

(** Dropping a contact whose [chatId] is falsy changes nothing for the
    filter, whatever else the list holds. *)
Lemma filter_chatId_skip (l1 l2 : list value) (c : value) :
  readable c = true ->
  eligible c = false ->
  filter_chatId (l1 ++ c :: l2)%list = filter_chatId (l1 ++ l2)%list.
Proof.
  intros Hr He. induction l1 as [|x l1 IH]; simpl.
  - rewrite (readable_get c Hr). simpl. unfold eligible in He. rewrite He.
    destruct (filter_chatId l2); reflexivity.
  - rewrite IH. reflexivity.
Qed.

Lemma successes_failures (log : list attempt) :
  (successes log + failures log = List.length log)%nat.
Proof.
  unfold successes, failures.
  induction log as [|a log IH]; simpl; [reflexivity|].
  destruct (delivered a); simpl; lia.
Qed.

Section Dispatch.

Variable World : Type.
Variable sendMessage : value -> value -> World -> bool * World.

(** One turn of the loop on a loggable contact: one notifier call, and
    exactly one of the two counters goes up, according to its outcome. *)
Lemma attempt_contact_loggable (message c : value) (counts : nat * nat)
  (w : World) (log : list attempt) :
  loggable c = true ->
  let ok := fst (sendMessage (chatId_of c) message w) in
  attempt_contact World sendMessage message c counts (w, log) =
  (Ok (if ok then (S (fst counts), snd counts)
       else (fst counts, S (snd counts))),
   (snd (sendMessage (chatId_of c) message w),
    (log ++ [mkAttempt (chatId_of c) message ok])%list)).
Proof.
  intros H. cbv zeta.
  pose proof (readable_get c (loggable_readable c H)) as Hid.
  unfold loggable in H. apply andb_true_iff in H. destruct H as [Hn Hi].
  rewrite Hid in Hi. simpl in Hi.
  unfold attempt_contact, try_catch, bindM, lift, await_sendMessage, ret.
  rewrite Hid.
  destruct (sendMessage (chatId_of c) message w) as [ok w']. simpl.
  destruct (get c "name") as [n|]; [|discriminate Hn]. simpl in Hn.
  destruct (ToString n); [|discriminate Hn].
  destruct (ToString (chatId_of c)); [|discriminate Hi].
  destruct ok; reflexivity.
Qed.

Lemma deliver_loggable (message : value) (cs : list value) :
  Forall (fun c => loggable c = true) cs ->
  forall (counts : nat * nat) (w : World) (log : list attempt),
  exists (w' : World) (attempts : list attempt),
    deliver World sendMessage message cs counts (w, log) =
      (Ok ((fst counts + successes attempts)%nat,
           (snd counts + failures attempts)%nat),
       (w', (log ++ attempts)%list))
    /\ map to attempts = map chatId_of cs
    /\ Forall (fun a => text a = message) attempts.
Proof.
  induction 1 as [|c rest Hc _ IH]; intros counts w log; simpl.
  - exists w, []. unfold ret, successes, failures. simpl.
    rewrite !Nat.add_0_r, app_nil_r. destruct counts. auto.
  - unfold bindM at 1. rewrite (attempt_contact_loggable _ _ _ _ _ Hc).
    set (ok := fst (sendMessage (chatId_of c) message w)).
    set (w1 := snd (sendMessage (chatId_of c) message w)).
    destruct (IH (if ok then (S (fst counts), snd counts)
                  else (fst counts, S (snd counts)))
                 w1 (log ++ [mkAttempt (chatId_of c) message ok])%list)
      as (w' & attempts & Hd & Hto & Htext).
    exists w', (mkAttempt (chatId_of c) message ok :: attempts).
    rewrite Hd. split; [|split].
    + rewrite <- app_assoc. simpl. f_equal. f_equal.
      unfold successes, failures. simpl.
      destruct ok; simpl; f_equal; lia.
    + simpl. f_equal. exact Hto.
    + constructor; [reflexivity | exact Htext].
Qed.

(** When the filter keeps nothing, line 129 answers at once, with an
    object that has no [total], and the notifier is not called. *)
Lemma sendAlert_nothing_kept (message : value) (s : safetyState)
  (st : World * list attempt) :
  filter_chatId (contacts s) = Ok [] ->
  sendAlertToContacts World sendMessage message s st =
  (Ok (mkResult 0 0 None), st).
Proof.
  intros H. unfold sendAlertToContacts, bindM, lift. rewrite H. reflexivity.
Qed.

End Dispatch.

(** Section 8 of the specification: three contacts, two with an
    identifier, one of the two deliveries failing. *)
Example dispatch_two_of_three :
  let cs := [VObj [("name", str "Ada"); ("chatId", num 5)];
             VObj [("name", str "Bob"); ("chatId", num 7)];
             VObj [("name", str "Cy")]] in
  let not_seven := fun (id _ : value) (w : unit) =>
    (match id with VPrim (PNum (Int 7)) => false | _ => true end, w) in
  sendAlertToContacts unit not_seven (str "help")
                      (set_contacts cs initialState) (tt, []) =
  (Ok (mkResult 1 1 (Some 2%nat)),
   (tt, [mkAttempt (num 5) (str "help") true;
         mkAttempt (num 7) (str "help") false])).
Proof. reflexivity. Qed.

(** A contact whose [name] is an object carrying its own [toString]
    cannot be printed: the log line throws, the log line of the [catch]
    throws again, and the dispatch is rejected after the message has gone
    out. *)
Example dispatch_unprintable_name :
  let cs := [VObj [("name", VObj [("toString", num 1)]); ("chatId", num 5)]] in
  let reached := fun (_ _ : value) (w : unit) => (true, w) in
  loggable (hd null cs) = false
  /\ sendAlertToContacts unit reached (str "help")
                         (set_contacts cs initialState) (tt, []) =
     (Throw, (tt, [mkAttempt (num 5) (str "help") true])).
Proof. split; reflexivity. Qed.

(** *** Requests with numeric fields *)

Lemma js_or_numeric (v : value) :
  numeric_field v = true -> js_or v (num 0) = num (field_value v).
Proof.
  destruct v as [[| |b|[|z]|str]|l|o]; try discriminate; intros _;
    unfold js_or; simpl; try reflexivity.
  destruct (z =? 0) eqn:E; simpl; [|reflexivity].
  apply Z.eqb_eq in E. subst z. reflexivity.
Qed.

(** Line 89 on numeric fields: hours, minutes and seconds, each 0 when
    absent, in milliseconds. *)
Lemma computed_duration_numeric (body : durationBody) :
  numeric_body body = true ->
  computed_duration body =
  Ok (Int ((field_value (hours body) * 3600
            + field_value (minutes body) * 60
            + field_value (seconds body)) * 1000)).
Proof.
  unfold numeric_body. intros H.
  apply andb_true_iff in H. destruct H as [H Hs].
  apply andb_true_iff in H. destruct H as [Hh Hm].
  unfold computed_duration.
  rewrite (js_or_numeric _ Hh), (js_or_numeric _ Hm), (js_or_numeric _ Hs).
  reflexivity.
Qed.

Lemma bounded_field_numeric (v : value) :
  bounded_field v = true ->
  numeric_field v = true /\ Z.abs (field_value v) <= 1000000000.
Proof.
  destruct v as [[| |b|[|z]|str]|l|o]; simpl; try discriminate;
    intros H; split; try reflexivity;
    try (apply Z.leb_le in H; exact H); lia.
Qed.

(** On bounded fields line 89 stays where binary64 is exact: every
    intermediate value and the result are below 2^53. *)
Lemma bounded_body_exact (body : durationBody) :
  bounded_body body = true ->
  computed_duration body = Ok (Int (duration_total body))
  /\ Z.abs (field_value (hours body) * 3600) < 2 ^ 53
  /\ Z.abs (field_value (minutes body) * 60) < 2 ^ 53
  /\ Z.abs (field_value (hours body) * 3600
            + field_value (minutes body) * 60) < 2 ^ 53
  /\ Z.abs (field_value (hours body) * 3600
            + field_value (minutes body) * 60
            + field_value (seconds body)) < 2 ^ 53
  /\ Z.abs (duration_total body) < 2 ^ 53.
Proof.
  unfold bounded_body. intros H.
  apply andb_true_iff in H. destruct H as [H Hs].
  apply andb_true_iff in H. destruct H as [Hh Hm].
  destruct (bounded_field_numeric _ Hh) as [Nh Bh].
  destruct (bounded_field_numeric _ Hm) as [Nm Bm].
  destruct (bounded_field_numeric _ Hs) as [Ns Bs].
  split.
  - apply computed_duration_numeric. unfold numeric_body.
    rewrite Nh, Nm, Ns. reflexivity.
  - unfold duration_total.
    change (2 ^ 53) with 9007199254740992. lia.
Qed.

(** ** The claims *)

(** C1 (the program departs from the claim).  Armed with deadline
    [D = 1700086400000] and a 24 h duration [T1], a request at
    [now = 1700010000000] changes the duration to [T2] = 2 h.  The claim
    puts the new deadline at [now + T2 - (T1 - (D - now))], that is
    [D + T2 - T1]; the handler stores [T2] and leaves the deadline at
    [D], because line 95 has replaced [T1] by [T2] before line 99 reads
    it. *)
Theorem C1_setDuration_does_not_move_deadline :
  let D := 1700086400000 in
  let T1 := 86400000 in
  let T2 := 7200000 in
  let now := 1700010000000 in
  let s := armed_at D in
  let body := mkDurationBody (num 2) undefined undefined in
  let s' := snd (timer_duration now now body s) in
  timerDuration s = Int T1
  /\ computed_duration body = Ok (Int T2)
  /\ timerDuration s' = Int T2
  /\ deadline s' = PNum (Int D)
  /\ now + T2 - (T1 - (D - now)) = spec_setDuration_deadline now D T1 T2
  /\ deadline s' <> PNum (Int (spec_setDuration_deadline now D T1 T2)).
Proof.
  cbv zeta.
  rewrite (timer_duration_only_duration _ 1700086400000 7200000);
    [| reflexivity | reflexivity | lia].
  repeat split; try reflexivity.
  rewrite spec_setDuration_deadline_eq. simpl. intros H. discriminate H.
Qed.

Section DispatchClaims.

Variable World : Type.
Variable sendMessage : value -> value -> World -> bool * World.

(** C2, amended.  When no element of the contact list is [null], every
    contact with a truthy [chatId] is loggable, and there is at least one
    such contact, the dispatch returns a record whose [total] is the
    number of contacts with a truthy [chatId]; the notifier is called once
    per such contact, in order, with that contact's [chatId] and the
    message; [sent] is the number of those calls that succeeded, [failed]
    the number that did not, and [sent + failed = total]. *)
Theorem C2_counts_truthy_chatIds (message : value) (s : safetyState)
  (w : World) (log : list attempt) :
  Forall (fun c => readable c = true) (contacts s) ->
  Forall (fun c => loggable c = true) (filter eligible (contacts s)) ->
  filter eligible (contacts s) <> [] ->
  exists (r : alertResult) (w' : World) (attempts : list attempt),
    sendAlertToContacts World sendMessage message s (w, log) =
      (Ok r, (w', (log ++ attempts)%list))
    /\ total r = Some (List.length (filter eligible (contacts s)))
    /\ map to attempts = map chatId_of (filter eligible (contacts s))
    /\ Forall (fun a => text a = message) attempts
    /\ sent r = successes attempts
    /\ failed r = failures attempts
    /\ (sent r + failed r)%nat
       = List.length (filter eligible (contacts s)).
Proof.
  intros Hread Hkept Hne.
  destruct (deliver_loggable World sendMessage message _ Hkept
                             (0%nat, 0%nat) w log)
    as (w' & attempts & Hd & Hto & Htext).
  exists (mkResult (successes attempts) (failures attempts)
                   (Some (List.length (filter eligible (contacts s))))),
         w', attempts.
  assert (Hlen : List.length attempts
                 = List.length (filter eligible (contacts s))).
  { rewrite <- (length_map to), Hto, length_map. reflexivity. }
  split; [|repeat split; auto].
  - unfold sendAlertToContacts, bindM at 1, lift.
    rewrite (filter_chatId_readable _ Hread).
    destruct (filter eligible (contacts s)) as [|c kept] eqn:E;
      [contradiction|].
    change (List.length (c :: kept) =? 0)%nat with false. cbv iota.
    unfold bindM. rewrite Hd. reflexivity.
  - simpl. rewrite successes_failures. exact Hlen.
Qed.

(** C3 (the program departs from the claim).  When the filter keeps no
    contact the dispatch answers at once and the notifier is not called:
    the outside world and the log of calls are as before.  But the record
    it answers with is [{sent: 0, failed: 0}]: it has no [total]
    property, where line 149 and the reader on line 169 have one. *)
Theorem C3_empty_dispatch_has_no_total (message : value) (s : safetyState)
  (w : World) (log : list attempt) :
  Forall (fun c => readable c = true) (contacts s) ->
  Forall (fun c => eligible c = false) (contacts s) ->
  exists r : alertResult,
    sendAlertToContacts World sendMessage message s (w, log) =
      (Ok r, (w, log))
    /\ sent r = 0%nat
    /\ failed r = 0%nat
    /\ total r = None
    /\ total r <> Some 0%nat.
Proof.
  intros Hr He. exists (mkResult 0 0 None).
  split; [|repeat split; discriminate].
  apply sendAlert_nothing_kept.
  rewrite (filter_chatId_readable _ Hr).
  f_equal. induction He as [|c rest Hc _ IH]; simpl.
  - reflexivity.
  - rewrite Hc. apply IH. inversion Hr. assumption.
Qed.

(** C10.  The filter keeps exactly the readable contacts whose [chatId]
    is truthy.  An object whose [chatId] is the empty string, 0 or [null]
    is not kept, no more than one without the property; and for the
    dispatch such a contact might as well not be in the list, or have no
    [chatId] at all: result, notifier calls and outside world are the
    same. *)
Theorem C10_eligible_iff_truthy_chatId :
  (forall cs, Forall (fun c => readable c = true) cs ->
     filter_chatId cs = Ok (filter eligible cs))
  /\ (forall props,
        eligible (VObj props) =
        match own "chatId" props with
        | Some id => ToBoolean id
        | None => false
        end)
  /\ (forall props id,
        own "chatId" props = Some id ->
        id = str "" \/ id = num 0 \/ id = null ->
        eligible (VObj props) = false
        /\ eligible (VObj (delete "chatId" props)) = false)
  /\ (forall message s l1 l2 props st,
        contacts s = (l1 ++ VObj props :: l2)%list ->
        eligible (VObj props) = false ->
        sendAlertToContacts World sendMessage message s st =
          sendAlertToContacts World sendMessage message
            (set_contacts (l1 ++ l2)%list s) st
        /\ sendAlertToContacts World sendMessage message s st =
          sendAlertToContacts World sendMessage message
            (set_contacts (l1 ++ VObj (delete "chatId" props) :: l2)%list s)
            st).
Proof.
  split; [exact filter_chatId_readable|].
  split; [exact eligible_object|]. split.
  - intros props id Hid Hfalsy. rewrite !eligible_object, Hid, own_delete.
    destruct Hfalsy as [-> | [-> | ->]]; split; reflexivity.
  - intros message s l1 l2 props st Hc He.
    assert (He' : eligible (VObj (delete "chatId" props)) = false).
    { rewrite eligible_object, own_delete. reflexivity. }
    unfold sendAlertToContacts. simpl. rewrite Hc.
    rewrite (filter_chatId_skip l1 l2 _ (readable_object props) He).
    rewrite (filter_chatId_skip l1 l2 _ (readable_object _) He').
    split; reflexivity.
Qed.

End DispatchClaims.

(** C2, as the claim has it, fails: of two contacts that both carry a
    destination identifier, one being the empty string, [total] counts
    one. *)
Lemma C2_counterexample :
  let cs := [VObj [("name", str "Ada"); ("chatId", str "")];
             VObj [("name", str "Bob"); ("chatId", num 7)]] in
  let s := set_contacts cs initialState in
  let reached := fun (_ _ : value) (w : unit) => (true, w) in
  spec_total cs = 2%nat
  /\ sendAlertToContacts unit reached defaultMessage s (tt, []) =
     (Ok (mkResult 1 0 (Some 1%nat)),
      (tt, [mkAttempt (num 7) defaultMessage true]))
  /\ total (mkResult 1 0 (Some 1%nat)) <> Some (spec_total cs).
Proof.
  cbv zeta. split; [reflexivity|]. split; [reflexivity|].
  simpl. intros H. discriminate H.
Qed.

Lemma C2_witness :
  let cs := [VObj [("name", str "Ada"); ("chatId", num 5)];
             VObj [("name", str "Bob"); ("chatId", num 7)];
             VObj [("name", str "Cy")]] in
  let s := set_contacts cs initialState in
  let not_seven := fun (id _ : value) (w : unit) =>
    (match id with VPrim (PNum (Int 7)) => false | _ => true end, w) in
  exists (r : alertResult) (w' : unit) (attempts : list attempt),
    sendAlertToContacts unit not_seven defaultMessage s (tt, []) =
      (Ok r, (w', ([] ++ attempts)%list))
    /\ total r = Some 2%nat
    /\ map to attempts = [num 5; num 7]
    /\ Forall (fun a => text a = defaultMessage) attempts
    /\ sent r = successes attempts
    /\ failed r = failures attempts
    /\ (sent r + failed r)%nat = 2%nat.
Proof.
  cbv zeta.
  apply (C2_counts_truthy_chatIds unit
           (fun (id _ : value) (w : unit) =>
              (match id with VPrim (PNum (Int 7)) => false | _ => true end, w))
           defaultMessage
           (set_contacts [VObj [("name", str "Ada"); ("chatId", num 5)];
                          VObj [("name", str "Bob"); ("chatId", num 7)];
                          VObj [("name", str "Cy")]] initialState)
           tt []).
  - repeat constructor.
  - repeat constructor.
  - simpl. discriminate.
Defined.

Lemma C3_witness :
  let s := set_contacts [VObj [("name", str "Ada")];
                         VObj [("name", str "Bob"); ("chatId", null)]]
                        initialState in
  let reached := fun (_ _ : value) (w : unit) => (true, w) in
  exists r : alertResult,
    sendAlertToContacts unit reached defaultMessage s (tt, []) =
      (Ok r, (tt, []))
    /\ sent r = 0%nat
    /\ failed r = 0%nat
    /\ total r = None
    /\ total r <> Some 0%nat.
Proof.
  cbv zeta.
  apply (C3_empty_dispatch_has_no_total unit
           (fun (_ _ : value) (w : unit) => (true, w)) defaultMessage
           (set_contacts [VObj [("name", str "Ada")];
                          VObj [("name", str "Bob"); ("chatId", null)]]
                         initialState) tt []).
  - repeat constructor.
  - repeat constructor.
Defined.

(** C4.  Over any sequence of polls, whatever their times and whatever
    the state they start from, [checkTimer] starts at most one dispatch
    and never touches [deadline]; the dispatch it starts runs in a state
    whose flag is already true.  When the deadline is set to [D], not yet
    alerted, and the first poll comes at or after [D], that poll sets the
    flag and starts the dispatch, and every later poll returns without
    doing anything. *)
Theorem C4_one_dispatch_per_deadline (nows : list Z) (s : safetyState) :
  (List.length (snd (ticks nows s)) <= 1)%nat
  /\ deadline (fst (ticks nows s)) = deadline s
  /\ Forall (fun d => alertSentForCurrentDeadline d = true
                      /\ deadline d = deadline s) (snd (ticks nows s))
  /\ (forall D now rest,
        nows = now :: rest ->
        deadline s = PNum (Int D) ->
        D <> 0 ->
        D <= now ->
        alertSentForCurrentDeadline s = false ->
        checkTimer now s =
          (set_alertSent true s, Some (set_alertSent true s))
        /\ ticks rest (set_alertSent true s) = (set_alertSent true s, [])
        /\ Forall (fun t => checkTimer t (set_alertSent true s)
                            = (set_alertSent true s, None)) rest
        /\ ticks nows s = (set_alertSent true s, [set_alertSent true s])).
Proof.
  destruct (ticks_fire_at_most_once nows s) as (Hlen & Hd & Hall).
  split; [exact Hlen|]. split; [exact Hd|]. split.
  - eapply Forall_impl; [|exact Hall].
    intros d ->. split; reflexivity.
  - intros D now rest -> HD H0 Hle Hf.
    pose proof (checkTimer_fires now D s HD H0 Hle Hf) as Hfire.
    assert (Hrest : ticks rest (set_alertSent true s)
                    = (set_alertSent true s, [])).
    { apply ticks_after_alert. reflexivity. }
    split; [exact Hfire|]. split; [exact Hrest|]. split.
    + apply Forall_forall. intros t _.
      apply checkTimer_after_alert. reflexivity.
    + simpl. rewrite Hfire, Hrest. reflexivity.
Qed.

Lemma C4_witness :
  let s := run [ResetTimer 1700000000000
                  (mkResetBody (num 1000) (str "Alice"))] initialState in
  let alerted := set_alertSent true s in
  deadline s = PNum (Int 1700000001000)
  /\ ticks [1700000000500] s = (s, [])
  /\ checkTimer 1700000001500 s = (alerted, Some alerted)
  /\ ticks [1700000001600; 1700000031600] alerted = (alerted, [])
  /\ Forall (fun t => checkTimer t alerted = (alerted, None))
            [1700000001600; 1700000031600]
  /\ ticks [1700000001500; 1700000001600; 1700000031600] s
     = (alerted, [alerted]).
Proof.
  split; [reflexivity|]. split; [reflexivity|].
  apply (proj2 (proj2 (proj2
          (C4_one_dispatch_per_deadline
             [1700000001500; 1700000001600; 1700000031600]
             (run [ResetTimer 1700000000000
                     (mkResetBody (num 1000) (str "Alice"))] initialState))))
          1700000001000 1700000001500 [1700000001600; 1700000031600]).
  - reflexivity.
  - reflexivity.
  - lia.
  - lia.
  - reflexivity.
Defined.

(** C5, as the claim has it, fails: a negative duration is provided and
    not strictly positive, so the claim falls back to [timerDuration]; the
    handler takes the negative number, and the deadline lies in the
    past. *)
Lemma C5_counterexample :
  let now := 1700000000000 in
  let body := mkResetBody (num (-5000)) undefined in
  let s' := snd (reset_timer now body initialState) in
  spec_effective_duration (duration body) (timerDuration initialState)
  = Int 86400000
  /\ deadline s' = PNum (Int (now - 5000))
  /\ deadline s' <>
     PNum (num_add (Int now)
             (spec_effective_duration (duration body)
                                      (timerDuration initialState))).
Proof.
  cbv zeta. repeat split; try reflexivity.
  simpl. intros H. discriminate H.
Qed.

(** C5, amended.  For a reset at [now] whose [duration] is absent, [null]
    or an integer, with [now], that integer and [timerDuration] small, the
    new deadline is [now] plus the effective duration: the provided
    integer when it is not zero, of either sign, and [timerDuration]
    otherwise.  The same step clears [alertSentForCurrentDeadline] and
    sets [lastResetBy] to [resetBy] when that is truthy and to "Anonymous"
    when it is not (absent, [null], the empty string); [timerDuration] and
    [contacts] are not touched. *)
Theorem C5_reset_uses_nonzero_duration
  (now : Z) (body : resetBody) (s : safetyState) :
  small now ->
  small_number (timerDuration s) ->
  (duration body = undefined \/ duration body = null
   \/ exists d, duration body = num d /\ small d) ->
  let s' := snd (reset_timer now body s) in
  deadline s' =
    PNum (num_add (Int now)
            match duration body with
            | VPrim (PNum (Int d)) => if d =? 0 then timerDuration s else Int d
            | _ => timerDuration s
            end)
  /\ alertSentForCurrentDeadline s' = false
  /\ (ToBoolean (resetBy body) = true -> lastResetBy s' = resetBy body)
  /\ (ToBoolean (resetBy body) = false -> lastResetBy s' = str "Anonymous")
  /\ timerDuration s' = timerDuration s
  /\ contacts s' = contacts s.
Proof.
  intros _ _ H. cbv zeta. rewrite reset_timer_state.
  assert (Hadd :
    add (num now) (js_or (duration body) (VPrim (timerDuration s))) =
    Ok (PNum (num_add (Int now)
            match duration body with
            | VPrim (PNum (Int d)) => if d =? 0 then timerDuration s else Int d
            | _ => timerDuration s
            end))).
  { destruct H as [-> | [-> | [d [-> _]]]]; unfold js_or; simpl.
    - destruct (timerDuration s); reflexivity.
    - destruct (timerDuration s); reflexivity.
    - destruct (d =? 0); simpl; [destruct (timerDuration s)|]; reflexivity. }
  rewrite Hadd. simpl. unfold js_or.
  repeat split; auto; intros ->; reflexivity.
Qed.

Lemma C5_witness :
  let now := 1700000000000 in
  let body := mkResetBody (num (-5000)) (str "") in
  let s' := snd (reset_timer now body initialState) in
  deadline s' = PNum (Int 1699999995000)
  /\ alertSentForCurrentDeadline s' = false
  /\ (ToBoolean (resetBy body) = true -> lastResetBy s' = resetBy body)
  /\ (ToBoolean (resetBy body) = false -> lastResetBy s' = str "Anonymous")
  /\ timerDuration s' = timerDuration initialState
  /\ contacts s' = contacts initialState.
Proof.
  apply (C5_reset_uses_nonzero_duration 1700000000000
           (mkResetBody (num (-5000)) (str "")) initialState).
  - unfold small. lia.
  - simpl. unfold small. lia.
  - right. right. exists (-5000). split; [reflexivity|]. unfold small. lia.
Defined.

(** C6 (the program departs from the claim).  The server starts with a
    positive [timerDuration].  The body [{"hours": "abc"}] computes
    [NaN]; [NaN <= 0] is false, so the handler answers 200 and stores
    [NaN] in [timerDuration]: the state reached does not satisfy
    [timerDuration > 0].  The armed deadline becomes [NaN] on the way, and
    from then on no poll ever fires. *)
Theorem C6_NaN_duration_is_stored :
  let body := mkDurationBody (str "abc") undefined undefined in
  let s := run [Listening 1700000000000] initialState in
  let s' := run [Listening 1700000000000;
                 TimerDuration 1700010000000 1700010000000 body]
                initialState in
  spec_duration_positive initialState
  /\ spec_duration_positive s
  /\ computed_duration body = Ok NaN
  /\ num_le NaN (Int 0) = false
  /\ fst (timer_duration 1700010000000 1700010000000 body s) =
     Json 200 [("success", bool_ true);
               ("duration", VPrim (PNum NaN));
               ("message",
                str "Timer duration set to abch undefinedm undefineds")]
  /\ timerDuration s' = NaN
  /\ ~ spec_duration_positive s'
  /\ deadline s' = PNum NaN
  /\ (forall nows, ticks nows s' = (s', [])).
Proof.
  cbv zeta. repeat split; try reflexivity.
  - intros H. exact H.
  - intros nows. apply ticks_unarmed. reflexivity.
Qed.

(** C7.  In every run, a reset or an auto-rearm that gives [deadline] a
    new value leaves [alertSentForCurrentDeadline] false in the state it
    produces: the write of the deadline and the write of the flag belong
    to one callback, and no state lies between them.  The auto-rearm always
    ends with the flag false; a reset does so unless it threw before its
    first write. *)
Theorem C7_new_deadline_clears_flag
  (es : list event) (e : event) (s0 : safetyState) :
  rearms e = true ->
  let before := run es s0 in
  let after := run (es ++ [e])%list s0 in
  (deadline after <> deadline before ->
   alertSentForCurrentDeadline after = false)
  /\ (after = before \/ alertSentForCurrentDeadline after = false)
  /\ (forall now, e = AutoReset now ->
        deadline after = PNum (num_add (Int now) (timerDuration before))
        /\ alertSentForCurrentDeadline after = false).
Proof.
  intros He. cbv zeta. rewrite run_snoc.
  destruct (rearm_step (run es s0) e He) as [Heq | Hf].
  - split; [|split].
    + rewrite Heq. intros C. contradiction.
    + left. exact Heq.
    + intros now ->. simpl. split; reflexivity.
  - split; [|split].
    + intros _. exact Hf.
    + right. exact Hf.
    + intros now ->. simpl. split; reflexivity.
Qed.

Lemma C7_witness :
  let es := [Listening 1700000000000; CheckTimer 1700086400001] in
  let e := AutoReset 1700086401001 in
  let before := run es initialState in
  let after := run (es ++ [e])%list initialState in
  alertSentForCurrentDeadline before = true
  /\ (deadline after <> deadline before ->
      alertSentForCurrentDeadline after = false)
  /\ (after = before \/ alertSentForCurrentDeadline after = false)
  /\ (forall now, e = AutoReset now ->
        deadline after = PNum (num_add (Int now) (timerDuration before))
        /\ alertSentForCurrentDeadline after = false).
Proof.
  split; [reflexivity|].
  apply (C7_new_deadline_clears_flag
           [Listening 1700000000000; CheckTimer 1700086400001]
           (AutoReset 1700086401001) initialState).
  reflexivity.
Defined.

(** C8.  A request to /api/contacts whose [contacts] is not an array is
    answered 400 and leaves the state as it was; one whose [contacts] is an
    array, empty or not, replaces the whole contact list by that array,
    touches no other field, and is answered with [success] and the length
    of the array as [count]. *)
Theorem C8_contacts_replaced_or_rejected (c : value) (s : safetyState) :
  (isArray c = false ->
   post_contacts c s =
   (Json 400 [("error", str "Contacts must be an array")], s))
  /\ (forall l, c = VArr l ->
      fst (post_contacts c s) =
        Json 200 [("success", bool_ true);
                  ("count", num (Z.of_nat (List.length l)))]
      /\ contacts (snd (post_contacts c s)) = l
      /\ snd (post_contacts c s) = set_contacts l s).
Proof.
  split.
  - destruct c as [p|l|o]; simpl; intros H; try reflexivity; discriminate H.
  - intros l ->. simpl. repeat split.
Qed.

Lemma C8_witness :
  let s := run [Listening 1700000000000;
                PostContacts (VArr [VObj [("name", str "Ada")]])]
               initialState in
  (post_contacts (VObj [("name", str "Bob")]) s =
     (Json 400 [("error", str "Contacts must be an array")], s))
  /\ (fst (post_contacts (VArr []) s) =
        Json 200 [("success", bool_ true); ("count", num 0)]
      /\ contacts (snd (post_contacts (VArr []) s)) = []
      /\ snd (post_contacts (VArr []) s) = set_contacts [] s).
Proof.
  split.
  - apply (proj1 (C8_contacts_replaced_or_rejected
                    (VObj [("name", str "Bob")]) _)).
    reflexivity.
  - apply (proj2 (C8_contacts_replaced_or_rejected (VArr []) _) []).
    reflexivity.
Defined.




Lemma C10_witness :
  let ada := [("name", str "Ada"); ("chatId", str "")] in
  let bob := VObj [("name", str "Bob"); ("chatId", num 7)] in
  let s := set_contacts [bob; VObj ada] initialState in
  let reached := fun (_ _ : value) (w : unit) => (true, w) in
  (eligible (VObj ada) = false
   /\ eligible (VObj (delete "chatId" ada)) = false)
  /\ sendAlertToContacts unit reached defaultMessage s (tt, []) =
       sendAlertToContacts unit reached defaultMessage
         (set_contacts ([bob] ++ [])%list s) (tt, [])
  /\ sendAlertToContacts unit reached defaultMessage s (tt, []) =
       sendAlertToContacts unit reached defaultMessage
         (set_contacts ([bob] ++ [VObj (delete "chatId" ada)])%list s)
         (tt, []).
Proof.
  cbv zeta.
  pose proof (C10_eligible_iff_truthy_chatId unit
                (fun (_ _ : value) (w : unit) => (true, w)))
    as (_ & _ & Hfalsy & Hskip).
  split.
  - apply (Hfalsy [("name", str "Ada"); ("chatId", str "")] (str ""));
      [reflexivity | left; reflexivity].
  - apply (Hskip defaultMessage
             (set_contacts [VObj [("name", str "Bob"); ("chatId", num 7)];
                            VObj [("name", str "Ada"); ("chatId", str "")]]
                           initialState)
             [VObj [("name", str "Bob"); ("chatId", num 7)]] []
             [("name", str "Ada"); ("chatId", str "")] (tt, []));
      reflexivity.
Defined.

(** ** Further properties of the code *)

Import Routes.

(** *** Status and polling *)

Lemma timeLeft_numeric (now D : Z) (s : safetyState) :
  deadline s = PNum (Int D) ->
  Math_max0 (timeLeft now s) = Int (if D =? 0 then 0 else Z.max 0 (D - now)).
Proof.
  intros HD. unfold timeLeft. rewrite HD. simpl.
  destruct (D =? 0); reflexivity.
Qed.



(** X2.  A reset and the status read compose.  After a reset at [now]
    whose [duration] is absent, [null] or an integer, on a state with a
    numeric [timerDuration], all quantities small, the status read at a
    [later] instant reports [max 0 (now + e - later)], where [e] is the
    effective duration: the provided integer unless it is zero, and
    [timerDuration] otherwise.  (The sum [now + e] must not be 0, the one
    timestamp line 40 takes for unset.) *)
Theorem X2_timeLeft_after_reset
  (now later T : Z) (body : resetBody) (s : safetyState) :
  small now ->
  small later ->
  numeric_field (duration body) = true ->
  small (field_value (duration body)) ->
  timerDuration s = Int T ->
  small T ->
  let e := if field_value (duration body) =? 0 then T
           else field_value (duration body) in
  now + e <> 0 ->
  Math_max0 (timeLeft later (snd (reset_timer now body s)))
  = Int (Z.max 0 (now + e - later)).
Proof.
  intros _ _ Hn _ HT _ e He.
  assert (HD : deadline (snd (reset_timer now body s)) = PNum (Int (now + e))).
  { rewrite reset_timer_state. subst e. unfold js_or.
    destruct (duration body) as [[| |b|[|d]|str]|l|o]; try discriminate Hn;
      simpl; rewrite ?HT; simpl; try reflexivity.
    destruct (d =? 0); simpl; rewrite ?HT; reflexivity. }
  rewrite (timeLeft_numeric _ _ _ HD).
  destruct (now + e =? 0) eqn:E; [apply Z.eqb_eq in E; contradiction|].
  reflexivity.
Qed.

Lemma X2_witness :
  Math_max0 (timeLeft 1700000000400
               (snd (reset_timer 1700000000000
                       (mkResetBody (num 1000) (str "Alice")) initialState)))
  = Int 600.
Proof.
  apply (X2_timeLeft_after_reset 1700000000000 1700000000400 86400000
           (mkResetBody (num 1000) (str "Alice")) initialState);
    try reflexivity; try (unfold small; simpl; lia).
Defined.

Lemma checkTimer_before (now D : Z) (s : safetyState) :
  deadline s = PNum (Int D) -> now < D -> checkTimer now s = (s, None).
Proof.
  intros HD Hlt. unfold checkTimer, js_not. rewrite HD. simpl.
  destruct (D =? 0); simpl; [reflexivity|].
  destruct (now >=? D) eqn:G; [|reflexivity].
  rewrite Z.geb_leb in G. apply Z.leb_le in G. lia.
Qed.

(** X3.  A poll never starts a dispatch early.  Whenever [checkTimer]
    fires at [now], the flag was false, the deadline reads as a number
    [D <= now], the status at that instant reports no time left, and the
    state it leaves, in which the dispatch starts, is the old one with the
    flag set.  A poll strictly before a numeric deadline changes
    nothing. *)
Theorem X3_checkTimer_never_early (now : Z) (s : safetyState) :
  (forall d, snd (checkTimer now s) = Some d ->
     alertSentForCurrentDeadline s = false
     /\ d = set_alertSent true s
     /\ fst (checkTimer now s) = d
     /\ Math_max0 (timeLeft now s) = Int 0
     /\ exists D, PrimToNumber (deadline s) = Int D /\ D <= now)
  /\ (forall D, deadline s = PNum (Int D) -> now < D ->
        checkTimer now s = (s, None)).
Proof.
  split.
  - intros d. unfold checkTimer, js_not, timeLeft.
    destruct (ToBoolean (VPrim (deadline s))) eqn:Hb; simpl;
      [|discriminate].
    unfold prim_sub.
    destruct (PrimToNumber (deadline s)) as [|D] eqn:HD; simpl;
      [discriminate|].
    destruct (now >=? D) eqn:G; simpl; [|discriminate].
    destruct (alertSentForCurrentDeadline s) eqn:Hf; simpl; [discriminate|].
    intros H. injection H as <-.
    rewrite Z.geb_leb in G. apply Z.leb_le in G.
    repeat split; auto.
    + f_equal. lia.
    + exists D. split; [reflexivity | exact G].
  - intros D HD Hlt. exact (checkTimer_before now D s HD Hlt).
Qed.

Lemma X3_witness :
  (alertSentForCurrentDeadline (armed_at 1700000001000) = false
   /\ set_alertSent true (armed_at 1700000001000)
      = set_alertSent true (armed_at 1700000001000)
   /\ fst (checkTimer 1700000001500 (armed_at 1700000001000))
      = set_alertSent true (armed_at 1700000001000)
   /\ Math_max0 (timeLeft 1700000001500 (armed_at 1700000001000)) = Int 0
   /\ exists D, PrimToNumber (deadline (armed_at 1700000001000)) = Int D
                /\ D <= 1700000001500)
  /\ checkTimer 1700000000500 (armed_at 1700000001000)
     = (armed_at 1700000001000, None).
Proof.
  split.
  - apply (proj1 (X3_checkTimer_never_early
                    1700000001500 (armed_at 1700000001000))
                 (set_alertSent true (armed_at 1700000001000))).
    reflexivity.
  - apply (proj2 (X3_checkTimer_never_early
                    1700000000500 (armed_at 1700000001000))
                 1700000001000).
    + reflexivity.
    + lia.
Defined.

(** *** Runs *)

Lemma alerts_bound (es : list event) (s : safetyState) :
  (List.length (alerts es s)
   <= (if alertSentForCurrentDeadline s then 0 else 1) + count_rearms es)%nat.
Proof.
  revert s. induction es as [|e es IH]; intros s.
  - simpl. destruct (alertSentForCurrentDeadline s); simpl; lia.
  - assert (Hother :
      forall s', rearms e = false ->
        (alertSentForCurrentDeadline s = true ->
         alertSentForCurrentDeadline s' = true) ->
        (List.length (alerts es s')
         <= (if alertSentForCurrentDeadline s then 0 else 1)
            + count_rearms (e :: es))%nat).
    { intros s' He Hkeep. specialize (IH s').
      unfold count_rearms in *. simpl. rewrite He.
      destruct (alertSentForCurrentDeadline s).
      - rewrite (Hkeep eq_refl) in IH. exact IH.
      - destruct (alertSentForCurrentDeadline s'); simpl in *; lia. }
    assert (Hrearm :
      forall s', rearms e = true ->
        (List.length (alerts es s')
         <= (if alertSentForCurrentDeadline s then 0 else 1)
            + count_rearms (e :: es))%nat).
    { intros s' He. specialize (IH s').
      unfold count_rearms in *. simpl. rewrite He. simpl.
      destruct (alertSentForCurrentDeadline s');
        destruct (alertSentForCurrentDeadline s); simpl in *; lia. }
    destruct e as [now|now body|c|now1 now2 body|now|now]; cbn [alerts].
    + apply Hother; [reflexivity|].
      apply (step_keeps_flag s (Listening now)). reflexivity.
    + apply Hrearm. reflexivity.
    + apply Hother; [reflexivity|].
      apply (step_keeps_flag s (PostContacts c)). reflexivity.
    + apply Hother; [reflexivity|].
      apply (step_keeps_flag s (TimerDuration now1 now2 body)). reflexivity.
    + destruct (checkTimer_cases now s) as [E | [Hf E]];
        simpl; rewrite E; simpl.
      * apply Hother; [reflexivity | auto].
      * specialize (IH (set_alertSent true s)). simpl in IH.
        rewrite Hf. unfold count_rearms in *. simpl. lia.
    + apply Hrearm. reflexivity.
Qed.

Lemma alerts_flagged (es : list event) (s : safetyState) :
  Forall (fun d => alertSentForCurrentDeadline d = true) (alerts es s).
Proof.
  revert s. induction es as [|e es IH]; intros s; [constructor|].
  destruct e as [now|now body|c|now1 now2 body|now|now]; cbn [alerts];
    try apply IH.
  destruct (checkTimer_cases now s) as [E | [_ E]]; rewrite E; simpl.
  - apply IH.
  - constructor; [reflexivity | apply IH].
Qed.

(** X4.  The dispatches that polls start need re-arms in between,
    whatever else the server handles: in every run the number of
    dispatches started by [checkTimer] is at most one more than the number
    of resets and auto-resets of that run, and at most that number when the
    run starts with the flag already set.  Each of them starts in a state
    whose flag is true.  (The dispatches of /api/send-alert are not
    counted: that route neither reads nor writes the flag.) *)
Theorem X4_alerts_bounded_by_rearms (es : list event) (s : safetyState) :
  (List.length (alerts es s) <= 1 + count_rearms es)%nat
  /\ (alertSentForCurrentDeadline s = true ->
      (List.length (alerts es s) <= count_rearms es)%nat)
  /\ Forall (fun d => alertSentForCurrentDeadline d = true) (alerts es s).
Proof.
  pose proof (alerts_bound es s) as H.
  split; [|split].
  - destruct (alertSentForCurrentDeadline s); lia.
  - intros Hf. rewrite Hf in H. exact H.
  - apply alerts_flagged.
Qed.

Lemma X4_witness :
  let es := [CheckTimer 1700086400001;
             AutoReset 1700086401001;
             CheckTimer 1700086430001;
             PostContacts (VArr []);
             CheckTimer 1700172801001;
             CheckTimer 1700172831001] in
  let s := set_alertSent true (armed_at 1700086400000) in
  List.length (alerts es s) = 1%nat
  /\ count_rearms es = 1%nat
  /\ (List.length (alerts es s) <= count_rearms es)%nat.
Proof.
  cbv zeta. split; [reflexivity|]. split; [reflexivity|].
  apply (proj1 (proj2 (X4_alerts_bounded_by_rearms
           [CheckTimer 1700086400001;
            AutoReset 1700086401001;
            CheckTimer 1700086430001;
            PostContacts (VArr []);
            CheckTimer 1700172801001;
            CheckTimer 1700172831001]
           (set_alertSent true (armed_at 1700086400000))))).
  reflexivity.
Defined.

(** *** Requests with numeric fields *)


(** *** Changing the duration, continued *)

(** X7.  A change of duration never arms the server.  On a state whose
    deadline fails the test of line 98 ([null] before the first arming),
    an accepted request with bounded numeric fields stores the new
    duration and nothing else, and polls keep doing nothing. *)
Theorem X7_setDuration_does_not_arm
  (now1 now2 : Z) (body : durationBody) (s : safetyState) :
  ToBoolean (VPrim (deadline s)) = false ->
  bounded_body body = true ->
  0 < duration_total body ->
  let s' := snd (timer_duration now1 now2 body s) in
  s' = set_timerDuration (Int (duration_total body)) s
  /\ deadline s' = deadline s
  /\ (forall nows, ticks nows s' = (s', [])).
Proof.
  intros Hb Hbody Hpos. cbv zeta.
  destruct (bounded_body_exact body Hbody) as [Hc _].
  rewrite timer_duration_state, Hc. simpl.
  destruct (duration_total body <=? 0) eqn:E; [apply Z.leb_le in E; lia|].
  unfold extend_deadline.
  change (deadline (set_timerDuration (Int (duration_total body)) s))
    with (deadline s).
  rewrite Hb.
  split; [reflexivity|]. split; [reflexivity|].
  intros nows. apply ticks_unarmed. exact Hb.
Qed.

Lemma X7_witness :
  let s' := snd (timer_duration 1700010000000 1700010000000
                   (mkDurationBody undefined (num 90) undefined)
                   initialState) in
  s' = set_timerDuration (Int 5400000) initialState
  /\ deadline s' = deadline initialState
  /\ (forall nows, ticks nows s' = (s', [])).
Proof.
  apply (X7_setDuration_does_not_arm 1700010000000 1700010000000
           (mkDurationBody undefined (num 90) undefined)
           initialState); reflexivity.
Defined.

(** *** What an error answer says about the state *)

Lemma falsy_is_prim (v : value) :
  ToBoolean v = false -> exists p, v = VPrim p.
Proof.
  destruct v as [p|l|o]; simpl; intros H; [eauto | discriminate | discriminate].
Qed.

Lemma ToPrimitive_ToString (v : value) :
  is_ok (ToPrimitive v) = true -> is_ok (ToString v) = true.
Proof.
  destruct v as [p|l|o]; [reflexivity | |];
    unfold ToPrimitive; intros H.
  - destruct (ToString (VArr l)); [reflexivity | discriminate H].
  - destruct (ToString (VObj o)); [reflexivity | discriminate H].
Qed.

(** An operand [v || 0] that converts makes [v] itself printable. *)
Lemma operand_printable (v : value) :
  is_ok (ToPrimitive (js_or v (num 0))) = true -> is_ok (ToString v) = true.
Proof.
  unfold js_or. destruct (ToBoolean v) eqn:E.
  - apply ToPrimitive_ToString.
  - intros _. destruct (falsy_is_prim v E) as [p ->]. reflexivity.
Qed.

Lemma mul_operand (a b : value) :
  is_ok (mul a b) = true -> is_ok (ToPrimitive a) = true.
Proof.
  unfold mul, ToNumber. destruct (ToPrimitive a); [reflexivity | discriminate].
Qed.

Lemma add_operand (a b : value) :
  is_ok (add a b) = true -> is_ok (ToPrimitive b) = true.
Proof.
  unfold add. destruct (ToPrimitive a); [|discriminate]. simpl.
  destruct (ToPrimitive b); [reflexivity | discriminate].
Qed.

(** Once line 89 has been computed, the message of line 106 cannot
    throw. *)
Lemma duration_message_ok (body : durationBody) :
  is_ok (computed_duration body) = true ->
  is_ok (duration_message body) = true.
Proof.
  unfold computed_duration, duration_message. intros H.
  destruct (mul (js_or (hours body) (num 0)) (num 3600)) as [h|] eqn:Eh;
    [|discriminate H].
  destruct (mul (js_or (minutes body) (num 0)) (num 60)) as [m|] eqn:Em;
    [|discriminate H].
  simpl in H.
  destruct (add (VPrim (PNum (num_add h m))) (js_or (seconds body) (num 0)))
    as [t|] eqn:Es; [|discriminate H].
  assert (Hh : is_ok (ToString (hours body)) = true).
  { apply operand_printable. apply (mul_operand _ (num 3600)).
    rewrite Eh. reflexivity. }
  assert (Hm : is_ok (ToString (minutes body)) = true).
  { apply operand_printable. apply (mul_operand _ (num 60)).
    rewrite Em. reflexivity. }
  assert (Hs : is_ok (ToString (seconds body)) = true).
  { apply operand_printable.
    apply (add_operand (VPrim (PNum (num_add h m)))).
    rewrite Es. reflexivity. }
  destruct (ToString (hours body)); [|discriminate Hh].
  destruct (ToString (minutes body)); [|discriminate Hm].
  destruct (ToString (seconds body)); [|discriminate Hs].
  reflexivity.
Qed.

(** X8.  The handlers of /api/timer-duration and /api/contacts write
    all or nothing: whenever the answer is not a 200, be it the 400 of a
    validation or the 500 of an exception, the state is exactly what it
    was.  In particular the template literal of line 106, evaluated after
    the writes, never throws. *)
Theorem X8_refused_requests_leave_state
  (now1 now2 : Z) (body : durationBody) (c : value) (s : safetyState) :
  ((exists payload,
      fst (timer_duration now1 now2 body s) = Json 200 payload)
   \/ snd (timer_duration now1 now2 body s) = s)
  /\ (fst (timer_duration now1 now2 body s) = InternalError ->
      computed_duration body = Throw
      /\ snd (timer_duration now1 now2 body s) = s)
  /\ ((exists payload, fst (post_contacts c s) = Json 200 payload)
      \/ snd (post_contacts c s) = s).
Proof.
  pose proof (duration_message_ok body) as Hmsg.
  unfold timer_duration.
  destruct (computed_duration body) as [d|]; simpl.
  - destruct (num_le d (Int 0)); simpl.
    + split; [right; reflexivity|]. split; [discriminate|].
      destruct c as [p|l|o]; simpl; eauto.
    + destruct (duration_message body) as [msg|];
        [|discriminate (Hmsg eq_refl)].
      simpl. split; [left; eauto|]. split; [discriminate|].
      destruct c as [p|l|o]; simpl; eauto.
  - split; [right; reflexivity|]. split; [auto|].
    destruct c as [p|l|o]; simpl; eauto.
Qed.

Lemma X8_witness :
  let body := mkDurationBody (VObj [("toString", num 1)]) undefined undefined in
  let s := armed_at 1700086400000 in
  computed_duration body = Throw
  /\ snd (timer_duration 1700010000000 1700010000000 body s) = s.
Proof.
  cbv zeta.
  apply (proj1 (proj2 (X8_refused_requests_leave_state
           1700010000000 1700010000000
           (mkDurationBody (VObj [("toString", num 1)]) undefined undefined)
           null (armed_at 1700086400000)))).
  reflexivity.
Defined.



(** *** Resetting, continued *)

Lemma checkTimer_NaN (now : Z) (s : safetyState) :
  PrimToNumber (deadline s) = NaN -> checkTimer now s = (s, None).
Proof.
  intros H. unfold checkTimer. rewrite H.
  destruct (js_not _); reflexivity.
Qed.

Lemma ticks_NaN (nows : list Z) (s : safetyState) :
  PrimToNumber (deadline s) = NaN -> ticks nows s = (s, []).
Proof.
  intros H. induction nows as [|now rest IH]; simpl.
  - reflexivity.
  - rewrite (checkTimer_NaN now s H), IH. reflexivity.
Qed.










(** X11.  A reset with an explicit non-zero integer duration [d] arms
    the timer from any state whatever, a stuck flag or a [NaN] duration
    included: with [now] and [d] small, the deadline is [now + d], polls
    before it do nothing and the first poll at or after it fires.
    ([now + d] must not be 0, the timestamp line 155 takes for unset.) *)
Theorem X11_explicit_reset_always_arms
  (now d t : Z) (who : value) (s : safetyState) :
  small now ->
  small d ->
  d <> 0 ->
  now + d <> 0 ->
  let s' := snd (reset_timer now (mkResetBody (num d) who) s) in
  deadline s' = PNum (Int (now + d))
  /\ (t < now + d -> checkTimer t s' = (s', None))
  /\ (now + d <= t ->
      checkTimer t s' = (set_alertSent true s', Some (set_alertSent true s'))).
Proof.
  intros _ _ Hd Hnd. cbv zeta.
  assert (Hs : snd (reset_timer now (mkResetBody (num d) who) s)
               = mkState (PNum (Int (now + d))) (timerDuration s)
                         (contacts s) false (js_or who (str "Anonymous"))).
  { rewrite reset_timer_state. unfold js_or at 1. simpl.
    destruct (d =? 0) eqn:E; [apply Z.eqb_eq in E; contradiction|].
    reflexivity. }
  rewrite Hs. split; [reflexivity|]. split.
  - intros Hlt.
    apply (checkTimer_before t (now + d)); [reflexivity | exact Hlt].
  - intros Hle. apply (checkTimer_fires t (now + d)); auto.
Qed.

Lemma X11_witness :
  let stuck := set_alertSent true
                 (set_timerDuration NaN (set_deadline (PNum NaN) initialState)) in
  let s' := snd (reset_timer 1700000000000
                   (mkResetBody (num 1000) undefined) stuck) in
  deadline s' = PNum (Int 1700000001000)
  /\ checkTimer 1700000000500 s' = (s', None)
  /\ checkTimer 1700000001000 s'
     = (set_alertSent true s', Some (set_alertSent true s')).
Proof.
  cbv zeta.
  pose (stuck := set_alertSent true
                   (set_timerDuration NaN
                      (set_deadline (PNum NaN) initialState))).
  destruct (X11_explicit_reset_always_arms 1700000000000 1000 1700000000500
              undefined stuck) as (Hd & Hbefore & _);
    [unfold small; lia | unfold small; lia | lia | lia |].
  destruct (X11_explicit_reset_always_arms 1700000000000 1000 1700000001000
              undefined stuck) as (_ & _ & Hafter);
    [unfold small; lia | unfold small; lia | lia | lia |].
  split; [exact Hd|]. split.
  - apply Hbefore. lia.
  - apply Hafter. lia.
Defined.

(** X12.  Once [timerDuration] is [NaN], a reset that brings no duration
    of its own (absent, [null] or 0) does not arm the timer: the deadline
    it stores is [NaN], the status reports no time left, and no poll
    fires. *)
Theorem X12_plain_reset_keeps_NaN
  (now t : Z) (body : resetBody) (s : safetyState) :
  timerDuration s = NaN ->
  numeric_field (duration body) = true ->
  field_value (duration body) = 0 ->
  let s' := snd (reset_timer now body s) in
  deadline s' = PNum NaN
  /\ Math_max0 (timeLeft t s') = Int 0
  /\ (forall nows, ticks nows s' = (s', [])).
Proof.
  intros HT Hn H0. cbv zeta.
  assert (Hd : deadline (snd (reset_timer now body s)) = PNum NaN).
  { rewrite reset_timer_state. unfold js_or.
    destruct (duration body) as [[| |b|[|d]|txt]|l|o]; try discriminate Hn;
      simpl; rewrite ?HT; simpl; try reflexivity.
    simpl in H0. subst d. simpl. rewrite ?HT. reflexivity. }
  split; [exact Hd|]. split.
  - unfold timeLeft. rewrite Hd. reflexivity.
  - intros nows. apply ticks_NaN. rewrite Hd. reflexivity.
Qed.

Lemma X12_witness :
  let broken := run [Listening 1700000000000;
                     TimerDuration 1700000000100 1700000000100
                       (mkDurationBody (str "abc") undefined undefined)]
                    initialState in
  let s' := snd (reset_timer 1700000000200
                   (mkResetBody undefined (str "Alice")) broken) in
  deadline s' = PNum NaN
  /\ Math_max0 (timeLeft 1700000000300 s') = Int 0
  /\ (forall nows, ticks nows s' = (s', [])).
Proof.
  apply (X12_plain_reset_keeps_NaN 1700000000200 1700000000300
           (mkResetBody undefined (str "Alice"))
           (run [Listening 1700000000000;
                 TimerDuration 1700000000100 1700000000100
                   (mkDurationBody (str "abc") undefined undefined)]
                initialState)); reflexivity.
Defined.

(** *** Who writes which field *)

Lemma step_fields (s : safetyState) (e : event) :
  contacts (step s e)
  = match e with
    | PostContacts (VArr l) => l
    | _ => contacts s
    end
  /\ (is_reset e = false -> lastResetBy (step s e) = lastResetBy s)
  /\ (is_timer_duration e = false ->
      timerDuration (step s e) = timerDuration s).
Proof.
  destruct e as [now|now body|c|now1 now2 body|now|now]; simpl.
  - auto.
  - rewrite reset_timer_state. destruct (add _ _); simpl.
    + split; [reflexivity|]. split; [discriminate | reflexivity].
    + split; [reflexivity|]. split; [discriminate | reflexivity].
  - destruct c as [p|l|o]; simpl; auto.
  - rewrite timer_duration_state.
    destruct (computed_duration body) as [d|]; [|split; auto; discriminate].
    destruct (num_le d (Int 0)); [split; auto; discriminate|].
    destruct (extend_deadline_frame now1 now2 (set_timerDuration d s))
      as (_ & -> & _ & ->).
    split; [reflexivity|]. split; [reflexivity | discriminate].
  - destruct (checkTimer_cases now s) as [E | [_ E]]; rewrite E; simpl; auto.
  - auto.
Qed.

(** X5.  With duration requests whose hours, minutes and seconds are
    absent, [null] or integers of at most nine digits, [timerDuration > 0]
    is an invariant: it holds of the initial state, and a run of any
    requests, polls and callbacks keeps it as long as its duration
    requests are of that kind.  (Line 95 is the only write, and on such
    fields line 89 is exact and line 91 refuses what is not positive.) *)
Theorem X5_bounded_duration_requests_keep_duration_positive
  (es : list event) (s : safetyState) :
  spec_duration_positive initialState
  /\ (spec_duration_positive s ->
      forallb bounded_duration_request es = true ->
      spec_duration_positive (run es s)).
Proof.
  split; [unfold spec_duration_positive; simpl; lia|].
  revert s. induction es as [|e es IH]; intros s Hs Hes; [exact Hs|].
  simpl in Hes. apply andb_true_iff in Hes. destruct Hes as [He Hes].
  simpl. apply IH; [|exact Hes]. clear IH Hes.
  destruct (is_timer_duration e) eqn:Ek.
  - destruct e as [now|now body|c|now1 now2 body|now|now];
      try discriminate Ek.
    simpl in *. unfold spec_duration_positive in *.
    destruct (bounded_body_exact body He) as [Hc _].
    rewrite timer_duration_state, Hc. simpl.
    destruct (duration_total body <=? 0) eqn:E; [exact Hs|].
    apply Z.leb_gt in E.
    destruct (extend_deadline_frame now1 now2
                (set_timerDuration (Int (duration_total body)) s))
      as [-> _].
    exact E.
  - unfold spec_duration_positive.
    rewrite (proj2 (proj2 (step_fields s e)) Ek). exact Hs.
Qed.

Lemma X5_witness :
  spec_duration_positive
    (run [Listening 1700000000000;
          TimerDuration 1700000000100 1700000000100
            (mkDurationBody (num 1) (num (-30)) undefined);
          ResetTimer 1700000000200 (mkResetBody (str "soon") (str "Alice"));
          TimerDuration 1700000000300 1700000000300
            (mkDurationBody (num 0) (num (-5)) null);
          CheckTimer 1700005400200;
          AutoReset 1700005401200]
         initialState).
Proof.
  apply (proj2 (X5_bounded_duration_requests_keep_duration_positive
                  [Listening 1700000000000;
                   TimerDuration 1700000000100 1700000000100
                     (mkDurationBody (num 1) (num (-30)) undefined);
                   ResetTimer 1700000000200
                     (mkResetBody (str "soon") (str "Alice"));
                   TimerDuration 1700000000300 1700000000300
                     (mkDurationBody (num 0) (num (-5)) null);
                   CheckTimer 1700005400200;
                   AutoReset 1700005401200]
                  initialState)).
  - apply (proj1 (X5_bounded_duration_requests_keep_duration_positive
                    [] initialState)).
  - reflexivity.
Defined.

(** X13.  The contact list is whatever the last accepted request to
    /api/contacts sent, as a whole: no other handler or callback writes
    it, a refused request leaves it, and nothing is ever merged. *)
Theorem X13_contacts_are_last_posted (es : list event) (s : safetyState) :
  contacts (run es s) = last_posted es (contacts s).
Proof.
  revert s. induction es as [|e es IH]; intros s; [reflexivity|].
  unfold run, last_posted in *. simpl. rewrite IH.
  rewrite (proj1 (step_fields s e)).
  destruct e as [now|now body|c|now1 now2 body|now|now]; try reflexivity.
Qed.

(** X14.  [lastResetBy] is written by /api/reset-timer alone, and
    [timerDuration] by /api/timer-duration alone: a run without reset
    requests, polls, alerts and auto-resets included, keeps the name of
    the last resetter, and a run without duration requests keeps the
    duration. *)
Theorem X14_single_writers (es : list event) (s : safetyState) :
  (forallb (fun e => negb (is_reset e)) es = true ->
   lastResetBy (run es s) = lastResetBy s)
  /\ (forallb (fun e => negb (is_timer_duration e)) es = true ->
      timerDuration (run es s) = timerDuration s).
Proof.
  split; revert s; induction es as [|e es IH]; intros s H;
    try reflexivity; simpl in H; apply andb_true_iff in H;
    destruct H as [He Hes]; apply negb_true_iff in He;
    simpl; rewrite (IH _ Hes).
  - apply (proj1 (proj2 (step_fields s e))). exact He.
  - apply (proj2 (proj2 (step_fields s e))). exact He.
Qed.

Lemma X14_witness :
  let es := [CheckTimer 1700000001500; AutoReset 1700000002500;
             PostContacts (VArr [])] in
  let s := snd (reset_timer 1700000000000
                  (mkResetBody (num 1000) (str "Alice")) initialState) in
  lastResetBy (run es s) = str "Alice"
  /\ timerDuration (run es s) = Int 86400000.
Proof.
  cbv zeta. split.
  - apply (proj1 (X14_single_writers
             [CheckTimer 1700000001500; AutoReset 1700000002500;
              PostContacts (VArr [])]
             (snd (reset_timer 1700000000000
                     (mkResetBody (num 1000) (str "Alice")) initialState)))).
    reflexivity.
  - apply (proj2 (X14_single_writers
             [CheckTimer 1700000001500; AutoReset 1700000002500;
              PostContacts (VArr [])]
             (snd (reset_timer 1700000000000
                     (mkResetBody (num 1000) (str "Alice")) initialState)))).
    reflexivity.
Defined.

(** *** The dispatcher, continued *)

Lemma filter_chatId_unreadable (cs : list value) :
  Exists (fun c => readable c = false) cs -> filter_chatId cs = Throw.
Proof.
  induction cs as [|c rest IH]; intros H; [inversion H|].
  simpl. unfold readable in *.
  destruct (get c "chatId") as [id|] eqn:E; [|reflexivity].
  simpl. rewrite IH; [reflexivity|].
  inversion H as [? ? Hc | ? ? Hr]; subst; [|exact Hr].
  rewrite E in Hc. discriminate Hc.
Qed.

Lemma filter_chatId_cases (cs : list value) :
  filter_chatId cs = Throw
  \/ (filter_chatId cs = Ok (filter eligible cs)
      /\ Forall (fun c => readable c = true) cs).
Proof.
  induction cs as [|c rest IH]; [right; split; [reflexivity | constructor]|].
  destruct (readable c) eqn:Hc.
  - destruct IH as [IH | [IH Hr]].
    + left. simpl. rewrite (readable_get c Hc), IH. reflexivity.
    + right. split; [|constructor; assumption].
      apply filter_chatId_readable. constructor; assumption.
  - left. apply filter_chatId_unreadable. constructor. exact Hc.
Qed.

Section DispatchAlways.

Variable World : Type.
Variable sendMessage : value -> value -> World -> bool * World.

(** One turn of the loop on any readable contact makes exactly one call,
    however the turn ends. *)
Lemma attempt_contact_one_call (message c : value) (counts : nat * nat)
  (w : World) (log : list attempt) :
  readable c = true ->
  exists r w' ok,
    attempt_contact World sendMessage message c counts (w, log) =
    (r, (w', (log ++ [mkAttempt (chatId_of c) message ok])%list)).
Proof.
  intros Hr. pose proof (readable_get c Hr) as Hid.
  unfold attempt_contact, try_catch, bindM, lift, await_sendMessage, ret.
  rewrite Hid.
  destruct (sendMessage (chatId_of c) message w) as [ok w'].
  destruct ok; simpl.
  - destruct (get c "name") as [n|]; simpl; [|eauto].
    destruct (ToString n); simpl; [|eauto].
    destruct (ToString (chatId_of c)); simpl; eauto.
  - destruct (get c "name") as [n|]; simpl; [|eauto].
    destruct (ToString n); simpl; eauto.
Qed.

Lemma deliver_calls_prefix (message : value) (cs : list value) :
  Forall (fun c => readable c = true) cs ->
  forall (counts : nat * nat) (w : World) (log : list attempt),
  exists r w' attempts,
    deliver World sendMessage message cs counts (w, log) =
      (r, (w', (log ++ attempts)%list))
    /\ is_prefix (map to attempts) (map chatId_of cs)
    /\ Forall (fun a => text a = message) attempts.
Proof.
  induction 1 as [|c rest Hc _ IH]; intros counts w log.
  - exists (Ok counts), w, []. simpl. unfold ret. rewrite app_nil_r.
    split; [reflexivity|]. split; [exists []; reflexivity | constructor].
  - destruct (attempt_contact_one_call message c counts w log Hc)
      as (r & w1 & ok & Ha).
    simpl. unfold bindM at 1. rewrite Ha.
    destruct r as [counts'|].
    + destruct (IH counts' w1
                   (log ++ [mkAttempt (chatId_of c) message ok])%list)
        as (r2 & w2 & attempts & Hd & [rest2 Hp] & Ht).
      exists r2, w2, (mkAttempt (chatId_of c) message ok :: attempts).
      rewrite Hd, <- app_assoc. split; [reflexivity|]. split.
      * exists rest2. simpl. rewrite Hp. reflexivity.
      * constructor; [reflexivity | exact Ht].
    + exists Throw, w1, [mkAttempt (chatId_of c) message ok].
      split; [reflexivity|]. split.
      * exists (map chatId_of rest). reflexivity.
      * constructor; [reflexivity | constructor].
Qed.

(** The dispatch resolves whenever the filter can read every element and
    the loop can print every contact it attempts. *)
Lemma sendAlert_resolves (message : value) (s : safetyState)
  (st : World * list attempt) :
  Forall (fun c => readable c = true) (contacts s) ->
  Forall (fun c => loggable c = true) (filter eligible (contacts s)) ->
  exists r st',
    sendAlertToContacts World sendMessage message s st = (Ok r, st').
Proof.
  intros Hr Hl. destruct st as [w log].
  unfold sendAlertToContacts, bindM at 1, lift.
  rewrite (filter_chatId_readable _ Hr).
  destruct (List.length (filter eligible (contacts s)) =? 0)%nat;
    [unfold ret; eauto|].
  destruct (deliver_loggable World sendMessage message _ Hl
                             (0%nat, 0%nat) w log)
    as (w' & attempts & Hd & _).
  unfold bindM. rewrite Hd. unfold ret. eauto.
Qed.

(** X15.  One element the filter cannot read, a [null] in the contact
    list, rejects every dispatch before anything is sent: the promise is
    rejected, the notifier is not called, and the contacts that do have a
    [chatId] are not alerted. *)
Theorem X15_null_contact_blocks_dispatch (message : value) (s : safetyState)
  (st : World * list attempt) :
  readable null = false
  /\ (Exists (fun c => readable c = false) (contacts s) ->
      sendAlertToContacts World sendMessage message s st = (Throw, st)).
Proof.
  split; [reflexivity|].
  intros H. unfold sendAlertToContacts, bindM, lift.
  rewrite (filter_chatId_unreadable _ H). reflexivity.
Qed.

(** X16.  Whatever the contacts, the message and the transport do, and
    however the dispatch ends, the notifier calls it makes are a prefix of
    the truthy [chatId]s of the list, in list order, all with the given
    message: no contact without a truthy [chatId] is ever written to, none
    is written to twice, and none is skipped in favour of a later one. *)
Theorem X16_calls_are_prefix_of_eligible (message : value) (s : safetyState)
  (w : World) (log : list attempt) :
  exists r w' attempts,
    sendAlertToContacts World sendMessage message s (w, log) =
      (r, (w', (log ++ attempts)%list))
    /\ is_prefix (map to attempts)
                 (map chatId_of (filter eligible (contacts s)))
    /\ Forall (fun a => text a = message) attempts.
Proof.
  unfold sendAlertToContacts, bindM at 1, lift.
  destruct (filter_chatId_cases (contacts s)) as [E | [E Hr]]; rewrite E.
  - exists Throw, w, []. rewrite app_nil_r.
    split; [reflexivity|]. split; [eexists; reflexivity | constructor].
  - destruct (List.length (filter eligible (contacts s)) =? 0)%nat.
    + exists (Ok (mkResult 0 0 None)), w, []. unfold ret. rewrite app_nil_r.
      split; [reflexivity|]. split; [eexists; reflexivity | constructor].
    + assert (Hk : Forall (fun c => readable c = true)
                          (filter eligible (contacts s))).
      { apply Forall_forall. intros c Hin. apply filter_In in Hin.
        rewrite Forall_forall in Hr. apply Hr. tauto. }
      destruct (deliver_calls_prefix message _ Hk (0%nat, 0%nat) w log)
        as (r & w' & attempts & Hd & Hp & Ht).
      unfold bindM. rewrite Hd.
      destruct r as [counts|]; unfold ret; eauto 10.
Qed.

(** *** The manual alert *)

Variable err_message : value.

(** X17.  /api/send-alert refuses a falsy message (absent, [null], the
    empty string) with a 400 and sends nothing.  With a truthy message,
    readable contacts and loggable recipients it answers 200 "Alert sent"
    whatever the transport did: equally when every delivery failed and
    when there was no one to send to. *)
Theorem X17_manual_alert_reports_no_failures
  (message : value) (s : safetyState) (st : World * list attempt) :
  (ToBoolean message = false ->
   send_alert World sendMessage err_message message s st
   = (Json 400 [("error", str "Message is required")], st))
  /\ (ToBoolean message = true ->
      Forall (fun c => readable c = true) (contacts s) ->
      Forall (fun c => loggable c = true) (filter eligible (contacts s)) ->
      fst (send_alert World sendMessage err_message message s st)
      = Json 200 [("success", bool_ true); ("message", str "Alert sent")]).
Proof.
  split.
  - intros H. unfold send_alert, js_not. rewrite H. reflexivity.
  - intros H Hr Hl. unfold send_alert, js_not. rewrite H. simpl.
    destruct (sendAlert_resolves message s st Hr Hl) as (r & st' & ->).
    reflexivity.
Qed.

(** X18.  With a truthy message and a contact list the filter cannot
    read, /api/send-alert answers 500 with the message of the exception,
    and nothing was sent. *)
Theorem X18_manual_alert_rejected
  (message : value) (s : safetyState) (st : World * list attempt) :
  ToBoolean message = true ->
  Exists (fun c => readable c = false) (contacts s) ->
  send_alert World sendMessage err_message message s st
  = (Json 500 [("error", err_message)], st).
Proof.
  intros H Hx. unfold send_alert, js_not. rewrite H. simpl.
  unfold sendAlertToContacts, bindM, lift.
  rewrite (filter_chatId_unreadable _ Hx). reflexivity.
Qed.

End DispatchAlways.

Lemma X15_witness :
  let s := set_contacts [VObj [("name", str "Ada"); ("chatId", num 5)]; null]
                        initialState in
  sendAlertToContacts unit (fun (_ _ : value) (w : unit) => (true, w))
                      defaultMessage s (tt, [])
  = (Throw, (tt, [])).
Proof.
  cbv zeta.
  apply (proj2 (X15_null_contact_blocks_dispatch unit
                  (fun (_ _ : value) (w : unit) => (true, w)) defaultMessage
                  (set_contacts
                     [VObj [("name", str "Ada"); ("chatId", num 5)]; null]
                     initialState)
                  (tt, []))).
  apply Exists_cons_tl. apply Exists_cons_hd. reflexivity.
Defined.

Lemma X17_witness :
  let s := set_contacts [VObj [("name", str "Ada"); ("chatId", num 5)]]
                        initialState in
  let unreachable := fun (_ _ : value) (w : unit) => (false, w) in
  send_alert unit unreachable (str "") (str "") s (tt, [])
  = (Json 400 [("error", str "Message is required")], (tt, []))
  /\ fst (send_alert unit unreachable (str "") (str "help") s (tt, []))
     = Json 200 [("success", bool_ true); ("message", str "Alert sent")].
Proof.
  cbv zeta. split.
  - apply (proj1 (X17_manual_alert_reports_no_failures unit
                    (fun (_ _ : value) (w : unit) => (false, w)) (str "")
                    (str "")
                    (set_contacts
                       [VObj [("name", str "Ada"); ("chatId", num 5)]]
                       initialState)
                    (tt, []))).
    reflexivity.
  - apply (proj2 (X17_manual_alert_reports_no_failures unit
                    (fun (_ _ : value) (w : unit) => (false, w)) (str "")
                    (str "help")
                    (set_contacts
                       [VObj [("name", str "Ada"); ("chatId", num 5)]]
                       initialState)
                    (tt, []))).
    + reflexivity.
    + repeat constructor.
    + repeat constructor.
Defined.

Lemma X18_witness :
  let s := set_contacts [null] initialState in
  send_alert unit (fun (_ _ : value) (w : unit) => (true, w))
             (str "Cannot read properties of null (reading 'chatId')")
             (str "help") s (tt, [])
  = (Json 500
       [("error", str "Cannot read properties of null (reading 'chatId')")],
     (tt, [])).
Proof.
  cbv zeta.
  apply (X18_manual_alert_rejected unit
           (fun (_ _ : value) (w : unit) => (true, w))
           (str "Cannot read properties of null (reading 'chatId')")
           (str "help") (set_contacts [null] initialState) (tt, [])).
  - reflexivity.
  - apply Exists_cons_hd. reflexivity.
Defined.

(** *** From the expiry to the next cycle *)

Section Cycle.

Variable World : Type.
Variable sendMessage : value -> value -> World -> bool * World.
Variable exits : bool.

(** X19.  Alerts recur.  When the deadline [D] has passed, the flag is
    clear and the dispatch resolves, the poll, the dispatch and the timer
    of line 172 leave the process running and the server armed for
    [now' + timerDuration] with the flag clear, where [now'] is the instant
    the timer runs and both are small; polls before that new deadline do
    nothing, and the first one at or after it fires again. *)
Theorem X19_alert_then_rearm
  (now now' D T t : Z) (s : safetyState) (st : World * list attempt) :
  deadline s = PNum (Int D) ->
  D <> 0 ->
  D <= now ->
  alertSentForCurrentDeadline s = false ->
  timerDuration s = Int T ->
  small T ->
  small now' ->
  now' + T <> 0 ->
  Forall (fun c => readable c = true) (contacts s) ->
  Forall (fun c => loggable c = true) (filter eligible (contacts s)) ->
  exists s',
    fst (checkTimer_then World sendMessage exits now now' s st) = Running s'
    /\ s' = autoReset now' (set_alertSent true s)
    /\ deadline s' = PNum (Int (now' + T))
    /\ alertSentForCurrentDeadline s' = false
    /\ (t < now' + T -> checkTimer t s' = (s', None))
    /\ (now' + T <= t ->
        checkTimer t s'
        = (set_alertSent true s', Some (set_alertSent true s'))).
Proof.
  intros HD HD0 Hle Hf HT _ _ HT0 Hr Hl.
  exists (autoReset now' (set_alertSent true s)).
  unfold checkTimer_then.
  rewrite (checkTimer_fires now D s HD HD0 Hle Hf).
  destruct (sendAlert_resolves World sendMessage defaultMessage
              (set_alertSent true s) st Hr Hl) as (r & st' & ->).
  simpl.
  assert (Hd : deadline (autoReset now' (set_alertSent true s))
               = PNum (Int (now' + T))).
  { simpl. rewrite HT. reflexivity. }
  split; [reflexivity|]. split; [reflexivity|]. split; [exact Hd|].
  split; [reflexivity|]. split.
  - intros Hlt. apply (checkTimer_before t (now' + T)); assumption.
  - intros Hge. apply (checkTimer_fires t (now' + T)); auto.
Qed.

(** X20.  Nothing re-arms after a rejected dispatch.  When the poll
    fires and the contact list holds an element the filter cannot read,
    nothing is sent and the [then] callback never runs.  Where the runtime
    ends the process on the unhandled rejection, the process is gone;
    where it only warns, the server goes on with the flag set and the
    deadline where it was, and no later poll starts a dispatch until a
    request to /api/reset-timer clears the flag. *)
Theorem X20_rejected_dispatch_never_rearms
  (now now' D : Z) (s : safetyState) (st : World * list attempt) :
  deadline s = PNum (Int D) ->
  D <> 0 ->
  D <= now ->
  alertSentForCurrentDeadline s = false ->
  Exists (fun c => readable c = false) (contacts s) ->
  checkTimer_then World sendMessage exits now now' s st
  = (if exits then Exited else Running (set_alertSent true s), st)
  /\ (forall s',
        fst (checkTimer_then World sendMessage exits now now' s st)
        = Running s' ->
        alertSentForCurrentDeadline s' = true
        /\ deadline s' = PNum (Int D)
        /\ (forall nows, ticks nows s' = (s', []))
        /\ (forall es, forallb (fun e => negb (rearms e)) es = true ->
              alerts es s' = [])).
Proof.
  intros HD HD0 Hle Hf Hx.
  assert (E : checkTimer_then World sendMessage exits now now' s st
              = (if exits then Exited else Running (set_alertSent true s),
                 st)).
  { unfold checkTimer_then.
    rewrite (checkTimer_fires now D s HD HD0 Hle Hf).
    unfold sendAlertToContacts, bindM, lift. simpl.
    rewrite (filter_chatId_unreadable _ Hx). reflexivity. }
  split; [exact E|].
  intros s' Hs'. rewrite E in Hs'. simpl in Hs'.
  destruct exits; [discriminate Hs'|].
  injection Hs' as <-.
  split; [reflexivity|]. split; [exact HD|]. split.
  - intros nows. apply ticks_after_alert. reflexivity.
  - intros es Hes. apply alerts_after_alert; [exact Hes | reflexivity].
Qed.

End Cycle.

Lemma X19_witness :
  let s := set_contacts [VObj [("name", str "Ada"); ("chatId", num 5)]]
                        (armed_at 1700086400000) in
  let unreachable := fun (_ _ : value) (w : unit) => (false, w) in
  exists s',
    fst (checkTimer_then unit unreachable true
           1700086420000 1700086421000 s (tt, [])) = Running s'
    /\ deadline s' = PNum (Int 1700172821000)
    /\ alertSentForCurrentDeadline s' = false
    /\ checkTimer 1700172820999 s' = (s', None)
    /\ checkTimer 1700172821000 s'
       = (set_alertSent true s', Some (set_alertSent true s')).
Proof.
  cbv zeta.
  pose (s := set_contacts [VObj [("name", str "Ada"); ("chatId", num 5)]]
                          (armed_at 1700086400000)).
  assert (Hr : Forall (fun c => readable c = true) (contacts s))
    by repeat constructor.
  assert (Hl : Forall (fun c => loggable c = true)
                      (filter eligible (contacts s)))
    by repeat constructor.
  destruct (X19_alert_then_rearm unit
              (fun (_ _ : value) (w : unit) => (false, w)) true
              1700086420000 1700086421000 1700086400000 86400000
              1700172820999 s (tt, []))
    as (s1 & Hrun & Hs & Hd & Hf & Hbefore & _);
    [reflexivity | lia | lia | reflexivity | reflexivity
     | unfold small; lia | unfold small; lia | lia | exact Hr | exact Hl |].
  destruct (X19_alert_then_rearm unit
              (fun (_ _ : value) (w : unit) => (false, w)) true
              1700086420000 1700086421000 1700086400000 86400000
              1700172821000 s (tt, []))
    as (s2 & _ & Hs2 & _ & _ & _ & Hafter);
    [reflexivity | lia | lia | reflexivity | reflexivity
     | unfold small; lia | unfold small; lia | lia | exact Hr | exact Hl |].
  exists s1. rewrite Hs2, <- Hs in Hafter.
  split; [exact Hrun|]. split; [exact Hd|]. split; [exact Hf|]. split.
  - apply Hbefore. lia.
  - apply Hafter. lia.
Defined.

Lemma X20_witness :
  let s := set_contacts [VObj [("name", str "Ada"); ("chatId", num 5)]; null]
                        (armed_at 1700086400000) in
  let reached := fun (_ _ : value) (w : unit) => (true, w) in
  checkTimer_then unit reached true 1700086420000 1700086421000 s (tt, [])
  = (Exited, (tt, []))
  /\ checkTimer_then unit reached false 1700086420000 1700086421000 s (tt, [])
     = (Running (set_alertSent true s), (tt, []))
  /\ (forall nows,
        ticks nows (set_alertSent true s) = (set_alertSent true s, [])).
Proof.
  cbv zeta.
  pose (s := set_contacts
               [VObj [("name", str "Ada"); ("chatId", num 5)]; null]
               (armed_at 1700086400000)).
  assert (Hx : Exists (fun c => readable c = false) (contacts s)).
  { apply Exists_cons_tl. apply Exists_cons_hd. reflexivity. }
  destruct (X20_rejected_dispatch_never_rearms unit
              (fun (_ _ : value) (w : unit) => (true, w)) true
              1700086420000 1700086421000 1700086400000 s (tt, []))
    as (Hexit & _); [reflexivity | lia | lia | reflexivity | exact Hx |].
  destruct (X20_rejected_dispatch_never_rearms unit
              (fun (_ _ : value) (w : unit) => (true, w)) false
              1700086420000 1700086421000 1700086400000 s (tt, []))
    as (Hrun & Hlater); [reflexivity | lia | lia | reflexivity | exact Hx |].
  split; [exact Hexit|]. split; [exact Hrun|].
  destruct (Hlater (set_alertSent true s)) as (_ & _ & Hticks & _).
  - rewrite Hrun. reflexivity.
  - exact Hticks.
Defined.

(** *** The duration request on numeric fields *)

(** X21.  With hours, minutes and seconds that are absent, [null] or
    integers of at most nine digits, /api/timer-duration computes
    [(hours * 3600 + minutes * 60 + seconds) * 1000] with 0 for what is
    missing, so that negative parts subtract.  It answers 400 and writes
    nothing when that total is [<= 0]; otherwise it answers 200 with the
    total as [duration] and stores it. *)
Theorem X21_numeric_duration_request
  (now1 now2 : Z) (body : durationBody) (s : safetyState) :
  bounded_body body = true ->
  (duration_total body <= 0 ->
   timer_duration now1 now2 body s
   = (Json 400 [("error", str "Duration must be greater than 0")], s))
  /\ (0 < duration_total body ->
      timerDuration (snd (timer_duration now1 now2 body s))
      = Int (duration_total body)
      /\ exists msg,
           fst (timer_duration now1 now2 body s)
           = Json 200 [("success", bool_ true);
                       ("duration", num (duration_total body));
                       ("message", str msg)]).
Proof.
  intros Hb. destruct (bounded_body_exact body Hb) as [Hc _]. split.
  - intros Hle.
    apply (timer_duration_rejects now1 now2 (duration_total body));
      assumption.
  - intros Hpos. split.
    + rewrite timer_duration_state, Hc. simpl.
      destruct (duration_total body <=? 0) eqn:E;
        [apply Z.leb_le in E; lia|].
      destruct (extend_deadline_frame now1 now2
                  (set_timerDuration (Int (duration_total body)) s))
        as [-> _].
      reflexivity.
    + pose proof (duration_message_ok body) as Hm.
      unfold timer_duration. rewrite Hc in *. simpl.
      destruct (duration_total body <=? 0) eqn:E;
        [apply Z.leb_le in E; lia|].
      destruct (duration_message body) as [msg|];
        [|discriminate (Hm eq_refl)].
      exists msg. simpl.
      destruct (extend_deadline_frame now1 now2
                  (set_timerDuration (Int (duration_total body)) s))
        as [-> _].
      reflexivity.
Qed.

Lemma X21_witness :
  let s := armed_at 1700086400000 in
  (timer_duration 1700010000000 1700010000000
     (mkDurationBody (num 1) (num (-60)) undefined) s
   = (Json 400 [("error", str "Duration must be greater than 0")], s))
  /\ (timerDuration (snd (timer_duration 1700010000000 1700010000000
                            (mkDurationBody (num 1) (num (-30)) null) s))
      = Int 1800000
      /\ exists msg,
           fst (timer_duration 1700010000000 1700010000000
                  (mkDurationBody (num 1) (num (-30)) null) s)
           = Json 200 [("success", bool_ true);
                       ("duration", num 1800000);
                       ("message", str msg)]).
Proof.
  cbv zeta. split.
  - apply (proj1 (X21_numeric_duration_request 1700010000000 1700010000000
                    (mkDurationBody (num 1) (num (-60)) undefined)
                    (armed_at 1700086400000) eq_refl)).
    vm_compute. discriminate.
  - apply (proj2 (X21_numeric_duration_request 1700010000000 1700010000000
                    (mkDurationBody (num 1) (num (-30)) null)
                    (armed_at 1700086400000) eq_refl)).
    reflexivity.
Defined.
